(** * GSD-84 reformatting tool: a shallow embedding of [app.py]

    [process_excel] reads one worksheet into a data frame, drops the rows
    that miss a required field, derives five output columns and returns
    them; [main] wraps it in the upload / preview / download script.

    Python values are modelled as the interpreter has them:
    - a [str] is a sequence of Unicode code points ([pystr]);
    - an [int] is unbounded ([Z]);
    - a [float] is an IEEE-754 binary64 value ([spec_float]);
    - an exception is a value of [exn], threaded through [result].

    The character classes behind [str.strip], [str.isdigit] and [int]
    are those of the Unicode 14 database shipped with CPython 3.11. *)

From Stdlib Require Import List ZArith NArith PArith Lia Bool String Ascii.
From Stdlib Require Import DecimalFacts DecimalPos DecimalN.
From Stdlib Require Import SpecFloat.
Import ListNotations.

Local Open Scope N_scope.

(* ================================================================== *)
(** ** Python strings *)

Module PyStr.

(** A code point. *)
Definition char := N.

(** A Python [str]. *)
Definition pystr := list char.

(** An ASCII literal of the source, as a [pystr]. *)
Definition lit (s : string) : pystr :=
  map N_of_ascii (list_ascii_of_string s).

Definition eqb (s t : pystr) : bool :=
  if list_eq_dec N.eq_dec s t then true else false.

Definition in_range (c : char) (r : N * N) : bool :=
  (fst r <=? c) && (c <=? snd r).

(** [str.isspace] for one character: bidirectional class WS, B or S, or
    general category Zs. *)
Definition whitespace_ranges : list (N * N) :=
  [ (0x09, 0x0D); (0x1C, 0x20); (0x85, 0x85); (0xA0, 0xA0);
    (0x1680, 0x1680); (0x2000, 0x200A); (0x2028, 0x2029);
    (0x202F, 0x202F); (0x205F, 0x205F); (0x3000, 0x3000) ].

Definition isspace_char (c : char) : bool :=
  existsb (in_range c) whitespace_ranges.

(** Characters with Numeric_Type=Decimal (category Nd).  Every block
    starts at the digit zero of its script, so the value of a character
    is its offset in the block modulo ten. *)
Definition decimal_ranges : list (N * N) :=
  [ (0x30, 0x39); (0x660, 0x669); (0x6F0, 0x6F9); (0x7C0, 0x7C9);
    (0x966, 0x96F); (0x9E6, 0x9EF); (0xA66, 0xA6F); (0xAE6, 0xAEF);
    (0xB66, 0xB6F); (0xBE6, 0xBEF); (0xC66, 0xC6F); (0xCE6, 0xCEF);
    (0xD66, 0xD6F); (0xDE6, 0xDEF); (0xE50, 0xE59); (0xED0, 0xED9);
    (0xF20, 0xF29); (0x1040, 0x1049); (0x1090, 0x1099);
    (0x17E0, 0x17E9); (0x1810, 0x1819); (0x1946, 0x194F);
    (0x19D0, 0x19D9); (0x1A80, 0x1A89); (0x1A90, 0x1A99);
    (0x1B50, 0x1B59); (0x1BB0, 0x1BB9); (0x1C40, 0x1C49);
    (0x1C50, 0x1C59); (0xA620, 0xA629); (0xA8D0, 0xA8D9);
    (0xA900, 0xA909); (0xA9D0, 0xA9D9); (0xA9F0, 0xA9F9);
    (0xAA50, 0xAA59); (0xABF0, 0xABF9); (0xFF10, 0xFF19);
    (0x104A0, 0x104A9); (0x10D30, 0x10D39); (0x11066, 0x1106F);
    (0x110F0, 0x110F9); (0x11136, 0x1113F); (0x111D0, 0x111D9);
    (0x112F0, 0x112F9); (0x11450, 0x11459); (0x114D0, 0x114D9);
    (0x11650, 0x11659); (0x116C0, 0x116C9); (0x11730, 0x11739);
    (0x118E0, 0x118E9); (0x11950, 0x11959); (0x11C50, 0x11C59);
    (0x11D50, 0x11D59); (0x11DA0, 0x11DA9); (0x16A60, 0x16A69);
    (0x16AC0, 0x16AC9); (0x16B50, 0x16B59); (0x1D7CE, 0x1D7FF);
    (0x1E140, 0x1E149); (0x1E2F0, 0x1E2F9); (0x1E950, 0x1E959);
    (0x1FBF0, 0x1FBF9) ].

(** Characters with Numeric_Type=Digit that are not decimal: superscripts,
    subscripts, circled and parenthesised digits and the like. *)
Definition other_digit_ranges : list (N * N) :=
  [ (0xB2, 0xB3); (0xB9, 0xB9); (0x1369, 0x1371); (0x19DA, 0x19DA);
    (0x2070, 0x2070); (0x2074, 0x2079); (0x2080, 0x2089);
    (0x2460, 0x2468); (0x2474, 0x247C); (0x2488, 0x2490);
    (0x24EA, 0x24EA); (0x24F5, 0x24FD); (0x24FF, 0x24FF);
    (0x2776, 0x277E); (0x2780, 0x2788); (0x278A, 0x2792);
    (0x10A40, 0x10A43); (0x10E60, 0x10E68); (0x11052, 0x1105A);
    (0x1F100, 0x1F10A) ].

(** The decimal value of a character, when it has one. *)
Definition decimal_value (c : char) : option N :=
  match find (in_range c) decimal_ranges with
  | Some (lo, _) => Some ((c - lo) mod 10)
  | None => None
  end.

Definition isdecimal_char (c : char) : bool :=
  existsb (in_range c) decimal_ranges.

(** [str.isdigit] for one character: Numeric_Type is Digit or Decimal. *)
Definition isdigit_char (c : char) : bool :=
  isdecimal_char c || existsb (in_range c) other_digit_ranges.

(** [s.isdigit()]: at least one character, and all of them digits. *)
Definition isdigit (s : pystr) : bool :=
  match s with
  | [] => false
  | _ => forallb isdigit_char s
  end.

(** [s.lstrip()], [s.rstrip()] and [s.strip()] with no argument. *)
Fixpoint lstrip (s : pystr) : pystr :=
  match s with
  | c :: s' => if isspace_char c then lstrip s' else s
  | [] => []
  end.

Definition rstrip (s : pystr) : pystr := rev (lstrip (rev s)).

Definition strip (s : pystr) : pystr := rstrip (lstrip s).

(** The ASCII digit for a value below ten. *)
Definition ascii_digit (d : N) : char := 0x30 + d.

Definition is_ascii_digit (c : char) : bool := (0x30 <=? c) && (c <=? 0x39).

Fixpoint digits_of_uint (d : Decimal.uint) : list N :=
  match d with
  | Decimal.Nil => []
  | Decimal.D0 d => 0 :: digits_of_uint d
  | Decimal.D1 d => 1 :: digits_of_uint d
  | Decimal.D2 d => 2 :: digits_of_uint d
  | Decimal.D3 d => 3 :: digits_of_uint d
  | Decimal.D4 d => 4 :: digits_of_uint d
  | Decimal.D5 d => 5 :: digits_of_uint d
  | Decimal.D6 d => 6 :: digits_of_uint d
  | Decimal.D7 d => 7 :: digits_of_uint d
  | Decimal.D8 d => 8 :: digits_of_uint d
  | Decimal.D9 d => 9 :: digits_of_uint d
  end.

(** [str(n)] for a non-negative [int]: canonical decimal, no leading
    zero except for zero itself. *)
Definition str_of_N (n : N) : pystr :=
  map ascii_digit (digits_of_uint (N.to_uint n)).

(** [str(z)] for an [int]. *)
Definition str_of_Z (z : Z) : pystr :=
  match z with
  | Zneg p => 0x2D :: str_of_N (Npos p)
  | _ => str_of_N (Z.to_N z)
  end.

(** The base-ten value of a sequence of digit values, most significant
    first. *)
Definition digits_value (ds : list N) : N :=
  fold_left (fun acc d => 10 * acc + d) ds 0.

(** The decimal values of all the characters of [s], when all have one. *)
Fixpoint decimal_values (s : pystr) : option (list N) :=
  match s with
  | [] => Some []
  | c :: s' =>
      match decimal_value c, decimal_values s' with
      | Some d, Some ds => Some (d :: ds)
      | _, _ => None
      end
  end.

(** [s] without its leading ASCII zeros, keeping one digit. *)
Fixpoint drop_leading_zeros (s : pystr) : pystr :=
  match s with
  | c :: ((_ :: _) as s') => if c =? 0x30 then drop_leading_zeros s' else s
  | _ => s
  end.

End PyStr.
Import PyStr.

(* ================================================================== *)
(** ** Python floats *)

Module PyFloat.

Local Open Scope Z_scope.

Definition prec : Z := 53.
Definition emax : Z := 1024.

(** The binary64 value nearest to an [int] (ties to even); an infinite
    result stands for the overflow that [float(z)] reports. *)
Definition float_of_int (z : Z) : spec_float :=
  binary_normalize prec emax z 0 false.

(** [x < 0] on floats: false on NaN and on either zero. *)
Definition ltb_zero (x : spec_float) : bool :=
  SFltb x (S754_zero false).

Definition sign_prefix (s : bool) : pystr :=
  if s then [0x2D%N] else [].

(** The integer nearest to [n / 2^k], ties to the even one. *)
Definition round_half_even_shift (n k : N) : N :=
  let d := (2 ^ k)%N in
  let q := (n / d)%N in
  let r := (n mod d)%N in
  match (2 * r ?= d)%N with
  | Lt => q
  | Gt => (q + 1)%N
  | Eq => if N.even q then q else (q + 1)%N
  end.

(** [m * 2^e] in hundredths, correctly rounded. *)
Definition hundredths (m : positive) (e : Z) : N :=
  match e with
  | Zneg k => round_half_even_shift (100 * Npos m) (Npos k)
  | _ => (100 * Npos m * 2 ^ Z.to_N e)%N
  end.

(** A count of hundredths as [digits.dd]. *)
Definition fixed2 (q : N) : pystr :=
  str_of_N (q / 100)
    ++ [0x2E%N; ascii_digit ((q / 10) mod 10); ascii_digit (q mod 10)].

(** [f"{x:.2f}"] for a float. *)
Definition format_2f (x : spec_float) : pystr :=
  match x with
  | S754_nan => lit "nan"
  | S754_infinity s => sign_prefix s ++ lit "inf"
  | S754_zero s => sign_prefix s ++ lit "0.00"
  | S754_finite s m e => sign_prefix s ++ fixed2 (hundredths m e)
  end.

(** *** [repr] of a float: the shortest digits that read back as it *)

(** The scaled value [r / s] and the half-gaps [mp / s] above and
    [mm / s] below a canonical binary64 number [m * 2^e]. *)
Definition boundaries (m : positive) (e : Z) : Z * Z * Z * Z :=
  let narrow := (Zpos m =? 2 ^ 52) && (-1074 <? e) in
  if 0 <=? e then
    if narrow then (Zpos m * 2 ^ e * 4, 4, 2 ^ e * 2, 2 ^ e)
    else (Zpos m * 2 ^ e * 2, 2, 2 ^ e, 2 ^ e)
  else
    if narrow then (Zpos m * 4, 2 ^ (- e) * 4, 2, 1)
    else (Zpos m * 2, 2 ^ (- e) * 2, 1, 1).

(** Whether [hi = (r + mp) / s] still reaches [10^k]; a boundary that
    is itself admissible ([even]) counts as reached. *)
Definition reaches (even : bool) (r s mp k : Z) : bool :=
  let hi := if 0 <=? k then r + mp else (r + mp) * 10 ^ (- k) in
  let pw := if 0 <=? k then s * 10 ^ k else s in
  if even then pw <=? hi else pw <? hi.

Fixpoint scale (fuel : nat) (even : bool) (r s mp k : Z) : Z :=
  match fuel with
  | O => k
  | S fuel' =>
      if reaches even r s mp k then scale fuel' even r s mp (k + 1) else k
  end.

Fixpoint generate (fuel : nat) (even : bool) (r s mp mm : Z) : list N :=
  match fuel with
  | O => []
  | S fuel' =>
      let d := (r * 10) / s in
      let r' := (r * 10) mod s in
      let mp' := mp * 10 in
      let mm' := mm * 10 in
      let low := if even then r' <=? mm' else r' <? mm' in
      let high := if even then s <=? r' + mp' else s <? r' + mp' in
      match low, high with
      | false, false => Z.to_N d :: generate fuel' even r' s mp' mm'
      | true, false => [Z.to_N d]
      | false, true => [Z.to_N (d + 1)]
      | true, true =>
          match r' * 2 ?= s with
          | Lt => [Z.to_N d]
          | Gt => [Z.to_N (d + 1)]
          | Eq => if Z.even d then [Z.to_N d] else [Z.to_N (d + 1)]
          end
      end
  end.

(** The shortest digits [ds] and the position [k] of the decimal point:
    [m * 2^e] reads back from [0.ds * 10^k]. *)
Definition shortest (m : positive) (e : Z) : list N * Z :=
  let '(r, s, mp, mm) := boundaries m e in
  let even := Z.even (Zpos m) in
  let k0 := ((Z.log2 (Zpos m) + e) * 30103) / 100000 - 2 in
  let k := scale 8 even r s mp k0 in
  let '(r1, s1) :=
    if 0 <=? k then (r, s * 10 ^ k) else (r * 10 ^ (- k), s) in
  let scl := if 0 <=? k then 1 else 10 ^ (- k) in
  (generate 20 even r1 s1 (mp * scl) (mm * scl), k).

Definition zeros (n : Z) : pystr := repeat 0x30%N (Z.to_nat n).

(** The exponent part: a sign and at least two digits. *)
Definition exponent_part (x : Z) : pystr :=
  let a := str_of_N (Z.to_N (Z.abs x)) in
  [0x65%N; if x <? 0 then 0x2D%N else 0x2B%N]
    ++ (if Z.abs x <? 10 then 0x30%N :: a else a).

(** Digits and decimal point laid out as [repr] does: an exponent from
    1e16 on and below 1e-4, a trailing [.0] on whole numbers. *)
Definition layout (ds : list N) (k : Z) : pystr :=
  let cs := map ascii_digit ds in
  let n := Z.of_nat (List.length ds) in
  if (k <=? -4) || (16 <? k) then
    match cs with
    | [] => []
    | c :: [] => c :: exponent_part (k - 1)
    | c :: rest => c :: 0x2E%N :: rest ++ exponent_part (k - 1)
    end
  else if k <=? 0 then lit "0." ++ zeros (- k) ++ cs
  else if n <=? k then cs ++ zeros (k - n) ++ lit ".0"
  else firstn (Z.to_nat k) cs ++ 0x2E%N :: skipn (Z.to_nat k) cs.

(** [repr(x)], which is also [str(x)]. *)
Definition repr (x : spec_float) : pystr :=
  match x with
  | S754_nan => lit "nan"
  | S754_infinity s => sign_prefix s ++ lit "inf"
  | S754_zero s => sign_prefix s ++ lit "0.0"
  | S754_finite s m e =>
      match binary_normalize prec emax (Zpos m) e false with
      | S754_finite _ m' e' =>
          let '(ds, k) := shortest m' e' in sign_prefix s ++ layout ds k
      | S754_zero _ => sign_prefix s ++ lit "0.0"
      | _ => sign_prefix s ++ lit "inf"
      end
  end.

End PyFloat.

(* ================================================================== *)
(** ** Cell values, exceptions and data frames *)

(** A [pandas.Timestamp] without time zone; [nanos] is the fraction of
    the second, in nanoseconds. *)
Record timestamp := {
  year : N;
  month : N;
  day : N;
  hour : N;
  minute : N;
  second : N;
  nanos : N
}.

(** A [datetime.datetime] without time zone. *)
Record datetime := {
  dt_year : N;
  dt_month : N;
  dt_day : N;
  dt_hour : N;
  dt_minute : N;
  dt_second : N;
  dt_microsecond : N
}.

(** What a cell of the frame can hold: a number, a text or a date.  A
    column of dates only is read as [Timestamp]s, with [NaT] for a blank
    cell; in a column that also holds text or numbers a date cell stays
    the [datetime.datetime] the reader made of it, and a blank cell is
    the float NaN, as in every other column. *)
Inductive cell :=
| Float (x : spec_float)
| Int (z : Z)
| Str (s : pystr)
| Timestamp (t : timestamp)
| NaT
| Datetime (d : datetime).

Definition NaN : cell := Float S754_nan.

(** [pd.isna] on a scalar. *)
Definition isna (v : cell) : bool :=
  match v with
  | Float S754_nan => true
  | NaT => true
  | _ => false
  end.

(** [s.zfill(width)] for a string without sign. *)
Definition zfill (width : nat) (s : pystr) : pystr :=
  repeat 0x30 (width - List.length s) ++ s.

(** [t.strftime("%Y-%m-%d")].  A [Timestamp] lies between the years 1677
    and 2262, so [%Y] has its four digits without padding. *)
Definition strftime_ymd (t : timestamp) : pystr :=
  str_of_N (year t) ++ 0x2D :: zfill 2 (str_of_N (month t))
    ++ 0x2D :: zfill 2 (str_of_N (day t)).

(** [str(t)]: ISO format with a blank between date and time, and the
    fraction of the second only when there is one. *)
Definition timestamp_str (t : timestamp) : pystr :=
  strftime_ymd t ++ 0x20 :: zfill 2 (str_of_N (hour t))
    ++ 0x3A :: zfill 2 (str_of_N (minute t))
    ++ 0x3A :: zfill 2 (str_of_N (second t))
    ++ (if nanos t =? 0 then []
        else if nanos t mod 1000 =? 0
             then 0x2E :: zfill 6 (str_of_N (nanos t / 1000))
             else 0x2E :: zfill 9 (str_of_N (nanos t))).

(** [str(d)] for a [datetime.datetime]: ISO format with a blank between
    date and time, the year on four digits, and the microseconds only
    when there are some. *)
Definition datetime_str (d : datetime) : pystr :=
  zfill 4 (str_of_N (dt_year d)) ++ 0x2D :: zfill 2 (str_of_N (dt_month d))
    ++ 0x2D :: zfill 2 (str_of_N (dt_day d))
    ++ 0x20 :: zfill 2 (str_of_N (dt_hour d))
    ++ 0x3A :: zfill 2 (str_of_N (dt_minute d))
    ++ 0x3A :: zfill 2 (str_of_N (dt_second d))
    ++ (if dt_microsecond d =? 0 then []
        else 0x2E :: zfill 6 (str_of_N (dt_microsecond d))).

(** [str(v)]. *)
Definition py_str (v : cell) : pystr :=
  match v with
  | Float x => PyFloat.repr x
  | Int z => str_of_Z z
  | Str s => s
  | Timestamp t => timestamp_str t
  | NaT => lit "NaT"
  | Datetime d => datetime_str d
  end.

(** The exceptions the program can meet.  [ReadError] stands for
    whatever [pd.read_excel] raises on a file it cannot read. *)
Inductive exn :=
| KeyError (missing : list pystr)
| ValueError (about : cell)
| TypeError (operand : cell)
| OverflowError
| ReadError (cause : pystr).

Inductive result (A : Type) :=
| Ok (a : A)
| Raise (e : exn).

Arguments Ok {A} a.
Arguments Raise {A} e.

Definition bind {A B} (c : result A) (k : A -> result B) : result B :=
  match c with
  | Ok a => k a
  | Raise e => Raise e
  end.

Notation "x <- c ;; k" := (bind c (fun x => k))
  (at level 61, c at next level, right associativity).

(** A function applied to each element in turn; the first exception
    ends the traversal. *)
Fixpoint mapM {A B} (f : A -> result B) (l : list A) : result (list B) :=
  match l with
  | [] => Ok []
  | a :: l' => b <- f a ;; bs <- mapM f l' ;; Ok (b :: bs)
  end.

Definition label := pystr.

(** A row gives the cell under each column label; it is read only at
    the labels of its frame. *)
Definition Row := label -> cell.

Record DataFrame := {
  columns : list label;
  rows : list Row
}.

Definition has_column (df : DataFrame) (name : label) : bool :=
  existsb (PyStr.eqb name) (columns df).

(** [df[name]]: the column as a series. *)
Definition getitem (df : DataFrame) (name : label) : result (list cell) :=
  if has_column df name then Ok (map (fun row => row name) (rows df))
  else Raise (KeyError [name]).

(** [row[name]] inside a row-wise [apply]. *)
Definition loc (df : DataFrame) (row : Row) (name : label) : result cell :=
  if has_column df name then Ok (row name) else Raise (KeyError [name]).

Definition update (row : Row) (name : label) (v : cell) : Row :=
  fun l => if PyStr.eqb l name then v else row l.

(** [df[name] = values], for a series computed over the rows of [df]. *)
Definition setitem (df : DataFrame) (name : label) (values : list cell)
  : DataFrame :=
  {| columns := if has_column df name then columns df
                else columns df ++ [name];
     rows := map (fun rv => update (fst rv) name (snd rv))
                 (combine (rows df) values) |}.

(** [df[names]]: the frame reduced to the listed columns. *)
Definition select (df : DataFrame) (names : list label) : result DataFrame :=
  match filter (fun n => negb (has_column df n)) names with
  | [] => Ok {| columns := names; rows := rows df |}
  | missing => Raise (KeyError missing)
  end.

(** Whether [row] has a value under every label of [subset]. *)
Definition notna_all (subset : list label) (row : Row) : bool :=
  forallb (fun n => negb (isna (row n))) subset.

(** [df.dropna(subset=subset, how="any")]. *)
Definition dropna (subset : list label) (df : DataFrame) : result DataFrame :=
  match filter (fun n => negb (has_column df n)) subset with
  | [] => Ok {| columns := columns df;
                rows := filter (notna_all subset) (rows df) |}
  | missing => Raise (KeyError missing)
  end.

(** [df.apply(f, axis=1)] and [series.apply(f)]. *)
Definition apply_rows {B} (df : DataFrame) (f : Row -> result B)
  : result (list B) := mapM f (rows df).

Definition series_apply {B} (s : list cell) (f : cell -> result B)
  : result (list B) := mapM f s.

(* ================================================================== *)
(** ** The program *)

Definition DATE : label := lit "Date".
Definition INVOICE_NO : label := lit "Invoice No.".
Definition CUSTOMER_NAME : label := lit "Customer Name".
Definition AMOUNT_DUE : label := lit "Amount Due".
Definition CARD_ID : label := lit "Card ID".

Definition DEBTOR_REFERENCE : label := lit "Debtor Reference".
Definition TRANSACTION_TYPE : label := lit "Transaction Type".
Definition DOCUMENT_NUMBER : label := lit "Document Number".
Definition DOCUMENT_DATE : label := lit "Document Date".
Definition DOCUMENT_BALANCE : label := lit "Document Balance".

(** The [subset] of the [dropna] call. *)
Definition REQUIRED : list label := [DATE; INVOICE_NO; CUSTOMER_NAME; CARD_ID].

(** The columns of [final_df], in order. *)
Definition FINAL : list label :=
  [DEBTOR_REFERENCE; TRANSACTION_TYPE; DOCUMENT_NUMBER; DOCUMENT_DATE;
   DOCUMENT_BALANCE].

(** The limit CPython puts by default on the digits of a string passed
    to [int]. *)
Definition int_max_str_digits : nat := 4300.

(** [int(s)] for a string that passed [isdigit]: such a string has no
    sign, blank or underscore, so [int] succeeds exactly when every
    character is a decimal digit and the string is within the limit. *)
Definition py_int (s : pystr) : result N :=
  if (int_max_str_digits <? List.length s)%nat then Raise (ValueError (Str s))
  else match decimal_values s with
       | Some ds => Ok (digits_value ds)
       | None => Raise (ValueError (Str s))
       end.

(** [x < 0]. *)
Definition lt_zero (x : cell) : result bool :=
  match x with
  | Float f => Ok (PyFloat.ltb_zero f)
  | Int z => Ok (z <? 0)%Z
  | _ => Raise (TypeError x)
  end.

(** [f"{x:.2f}"].  An [int] is converted to a float first; a date hands
    the format to [strftime].  The last four cases are not reached by
    [process_excel], where [lt_zero] has raised on such a cell before. *)
Definition format_2f (x : cell) : result pystr :=
  match x with
  | Float f => Ok (PyFloat.format_2f f)
  | Int z =>
      match PyFloat.float_of_int z with
      | S754_infinity _ => Raise OverflowError
      | f => Ok (PyFloat.format_2f f)
      end
  | Str _ => Raise (ValueError x)
  | Timestamp _ => Ok (lit ".2f")
  | NaT => Raise (ValueError x)
  | Datetime _ => Ok (lit ".2f")
  end.

(** The lambda of step 1. *)
Definition debtor_reference (df : DataFrame) (row : Row) : result cell :=
  card <- loc df row CARD_ID ;;
  if PyStr.eqb (strip (py_str card)) (lit "*None")
  then loc df row CUSTOMER_NAME
  else loc df row CARD_ID.

(** The lambda of step 2. *)
Definition transaction_type (x : cell) : result pystr :=
  neg <- lt_zero x ;;
  Ok (if neg : bool then lit "CRD" else lit "INV").

Definition convert_invoice (invoice : cell) : result pystr :=
  if isna invoice then Ok []
  else
    let invoice_str := strip (py_str invoice) in
    if isdigit invoice_str
    then n <- py_int invoice_str ;; Ok (str_of_N n)
    else Ok invoice_str.

Definition convert_date (val : cell) : pystr :=
  if isna val then []
  else match val with
       | Timestamp t => strftime_ymd t
       | _ => py_str val
       end.

(** What the script puts on the page.  The download button carries the
    frame whose CSV text ([to_csv(index=False)], UTF-8) it offers. *)
Inductive element :=
| StTitle
| StWrite
| StFileUploader
| StSubheader
| StDataframe (df : DataFrame)
| StDownloadButton (data : DataFrame)
| StError (e : exn).

Section Script.

(** An uploaded file and the library call
    [pd.read_excel(file, header=9, usecols="B:G")]. *)
Variable file : Type.
Variable read_excel : file -> result DataFrame.

Definition process_excel (f : file) : result DataFrame :=
  df <- read_excel f ;;
  df <- dropna REQUIRED df ;;
  debtor <- apply_rows df (debtor_reference df) ;;
  let df := setitem df DEBTOR_REFERENCE debtor in
  amount <- getitem df AMOUNT_DUE ;;
  ttype <- series_apply amount transaction_type ;;
  let df := setitem df TRANSACTION_TYPE (map Str ttype) in
  invoice <- getitem df INVOICE_NO ;;
  number <- series_apply invoice convert_invoice ;;
  let df := setitem df DOCUMENT_NUMBER (map Str number) in
  date <- getitem df DATE ;;
  docdate <- series_apply date (fun v => Ok (convert_date v)) ;;
  let df := setitem df DOCUMENT_DATE (map Str docdate) in
  amount <- getitem df AMOUNT_DUE ;;
  balance <- series_apply amount format_2f ;;
  let df := setitem df DOCUMENT_BALANCE (map Str balance) in
  select df FINAL.

Definition main (uploaded_file : option file) : list element :=
  [StTitle; StWrite; StFileUploader] ++
  match uploaded_file with
  | None => []
  | Some f =>
      match process_excel f with
      | Ok df_final =>
          [StSubheader; StDataframe df_final; StDownloadButton df_final]
      | Raise e => [StError e]
      end
  end.

End Script.

(* ================================================================== *)
(** ** The record view of the specification *)

(** One row of the result, with the five fields of the final frame. *)
Record OutputRecord := {
  debtorReference : cell;
  transactionType : cell;
  documentNumber : cell;
  documentDate : cell;
  documentBalance : cell
}.

Definition record_of (row : Row) : OutputRecord :=
  {| debtorReference := row DEBTOR_REFERENCE;
     transactionType := row TRANSACTION_TYPE;
     documentNumber := row DOCUMENT_NUMBER;
     documentDate := row DOCUMENT_DATE;
     documentBalance := row DOCUMENT_BALANCE |}.

(** Rule 1: the card id, or the customer name under the sentinel. *)
Definition debtor_of (raw : Row) : cell :=
  if PyStr.eqb (strip (py_str (raw CARD_ID))) (lit "*None")
  then raw CUSTOMER_NAME else raw CARD_ID.

(** The field transformer of the specification: all five rules applied
    to one raw record. *)
Definition transform (raw : Row) : result OutputRecord :=
  ttype <- transaction_type (raw AMOUNT_DUE) ;;
  number <- convert_invoice (raw INVOICE_NO) ;;
  balance <- format_2f (raw AMOUNT_DUE) ;;
  Ok {| debtorReference := debtor_of raw;
        transactionType := Str ttype;
        documentNumber := Str number;
        documentDate := Str (convert_date (raw DATE));
        documentBalance := Str balance |}.

(** A row from literal labels, blank elsewhere. *)
Definition row_of (cells : list (string * cell)) : Row :=
  fun l =>
    match find (fun kv => PyStr.eqb l (lit (fst kv))) cells with
    | Some kv => snd kv
    | None => NaN
    end.


(* ================================================================== *)
(** ** Vocabulary of the statements *)

(** The value of a result, [d] for an exception. *)
Definition the {A} (d : A) (r : result A) : A :=
  match r with
  | Ok a => a
  | Raise _ => d
  end.

Definition succeeds {A} (r : result A) : Prop := exists a, r = Ok a.

(** The rows [dropna] keeps. *)
Definition survivors (df : DataFrame) : list Row :=
  filter (notna_all REQUIRED) (rows df).

(** A raw record with its date, invoice number, customer name and card
    id all present. *)
Definition has_required (raw : Row) : Prop :=
  isna (raw DATE) = false /\ isna (raw INVOICE_NO) = false /\
  isna (raw CUSTOMER_NAME) = false /\ isna (raw CARD_ID) = false.

(** The columns [process_excel] reads. *)
Definition CONSUMED : list label := AMOUNT_DUE :: REQUIRED.

(** The columns B to G that the instructions of [main] ask for. *)
Definition EXPECTED : list label :=
  [DATE; INVOICE_NO; CUSTOMER_NAME; lit "Amount"; AMOUNT_DUE; CARD_ID].

(** A cell left blank in the sheet. *)
Definition blank (v : cell) : Prop := v = NaN \/ v = NaT.

(** A raw record with its date, invoice number, customer name and card
    id all filled in. *)
Definition complete (raw : Row) : Prop :=
  ~ blank (raw DATE) /\ ~ blank (raw INVOICE_NO) /\
  ~ blank (raw CUSTOMER_NAME) /\ ~ blank (raw CARD_ID).

(** [kept_rows table kept]: [kept] is [table] without its incomplete
    rows; the complete ones stay in the order of the table, each as many
    times as it occurs. *)
Inductive kept_rows : list Row -> list Row -> Prop :=
| kept_nil : kept_rows [] []
| kept_keep r table kept :
    complete r -> kept_rows table kept -> kept_rows (r :: table) (r :: kept)
| kept_drop r table kept :
    ~ complete r -> kept_rows table kept -> kept_rows (r :: table) kept.

(** [s] is [core] with blank characters, if any, before and after. *)
Definition padded (core s : pystr) : Prop :=
  exists l r,
    s = l ++ core ++ r /\
    Forall (fun c => isspace_char c = true) l /\
    Forall (fun c => isspace_char c = true) r.

(** A card id that says there is no card: the text [*None], in this
    very spelling, possibly between blanks. *)
Definition is_sentinel (v : cell) : Prop :=
  exists s, v = Str s /\ padded (lit "*None") s.

(** The row of the final frame that a surviving row becomes, when no
    conversion raises. *)
Definition out_row (r : Row) : Row :=
  let r1 := update r DEBTOR_REFERENCE (debtor_of r) in
  let r2 := update r1 TRANSACTION_TYPE
              (Str (the [] (transaction_type (r AMOUNT_DUE)))) in
  let r3 := update r2 DOCUMENT_NUMBER
              (Str (the [] (convert_invoice (r INVOICE_NO)))) in
  let r4 := update r3 DOCUMENT_DATE (Str (convert_date (r DATE))) in
  update r4 DOCUMENT_BALANCE (Str (the [] (format_2f (r AMOUNT_DUE)))).

(** The steps of [process_excel] after [dropna]. *)
Definition derive (df : DataFrame) : result DataFrame :=
  debtor <- apply_rows df (debtor_reference df) ;;
  let df := setitem df DEBTOR_REFERENCE debtor in
  amount <- getitem df AMOUNT_DUE ;;
  ttype <- series_apply amount transaction_type ;;
  let df := setitem df TRANSACTION_TYPE (map Str ttype) in
  invoice <- getitem df INVOICE_NO ;;
  number <- series_apply invoice convert_invoice ;;
  let df := setitem df DOCUMENT_NUMBER (map Str number) in
  date <- getitem df DATE ;;
  docdate <- series_apply date (fun v => Ok (convert_date v)) ;;
  let df := setitem df DOCUMENT_DATE (map Str docdate) in
  amount <- getitem df AMOUNT_DUE ;;
  balance <- series_apply amount format_2f ;;
  let df := setitem df DOCUMENT_BALANCE (map Str balance) in
  select df FINAL.

(** The characters of a decimal numeral. *)
Definition chars_of_uint (d : Decimal.uint) : pystr :=
  map ascii_digit (digits_of_uint d).

(** An amount below zero: a negative finite float, minus infinity, or a
    negative [int]. *)
Definition strictly_negative (v : cell) : Prop :=
  match v with
  | Float (S754_finite true _ _) => True
  | Float (S754_infinity true) => True
  | Int z => (z < 0)%Z
  | _ => False
  end.

(** An amount equal to zero. *)
Definition is_zero (v : cell) : Prop :=
  match v with
  | Float (S754_zero _) => True
  | Int Z0 => True
  | _ => False
  end.

(** [float(v)] for a number. *)
Definition as_float (v : cell) : option spec_float :=
  match v with
  | Float x => Some x
  | Int z => Some (PyFloat.float_of_int z)
  | _ => None
  end.

(** Text of the shape digits.dd : at least one ASCII digit, a full stop,
    exactly two ASCII digits, nothing else. *)
Definition is_unsigned_fixed2 (s : pystr) : bool :=
  match rev s with
  | c0 :: c1 :: dot :: whole =>
      is_ascii_digit c0 && is_ascii_digit c1 && (dot =? 0x2E)
      && negb (match whole with [] => true | _ => false end)
      && forallb is_ascii_digit whole
  | _ => false
  end.

(** Text of the shape [-]digits.dd : the same after an optional minus
    sign; no currency symbol, no grouping separator. *)
Definition is_fixed2 (s : pystr) : bool :=
  match s with
  | c :: b => if c =? 0x2D then is_unsigned_fixed2 b else is_unsigned_fixed2 s
  | [] => false
  end.

(** The size of a finite amount: zero, or [m * 2^e]. *)
Inductive magnitude :=
| Zero
| Binary (m : positive) (e : Z).

(** The sign and size of an amount that is a finite number. *)
Definition finite_amount (v : cell) : option (bool * magnitude) :=
  match as_float v with
  | Some (S754_zero s) => Some (s, Zero)
  | Some (S754_finite s m e) => Some (s, Binary m e)
  | _ => None
  end.

(** [q] hundredths is a nearest two-decimal value of the size [a]: the
    two differ by at most half a hundredth. *)
Definition nearest_hundredths (a : magnitude) (q : N) : Prop :=
  match a with
  | Zero => q = 0
  | Binary m e =>
      let k := Z.max 0 (- e) in
      (2 * Z.abs (100 * Zpos m * 2 ^ (e + k) - Z.of_N q * 2 ^ k) <= 2 ^ k)%Z
  end.

(** The calendar form [YYYY-MM-DD], digit by digit. *)
Definition iso_date (y m d : N) : pystr :=
  [ ascii_digit (y / 1000); ascii_digit ((y / 100) mod 10);
    ascii_digit ((y / 10) mod 10); ascii_digit (y mod 10); 0x2D;
    ascii_digit (m / 10); ascii_digit (m mod 10); 0x2D;
    ascii_digit (d / 10); ascii_digit (d mod 10) ].

(** The calendar fields of a [Timestamp]. *)
Definition valid_date (t : timestamp) : Prop :=
  1677 <= year t <= 2262 /\ 1 <= month t <= 12 /\ 1 <= day t <= 31.

(** Whether the page offers a file to download. *)
Definition offers_download (page : list element) : bool :=
  existsb (fun w => match w with StDownloadButton _ => true | _ => false end)
          page.

(* ================================================================== *)
(** ** Sample sheets *)

Definition midnight (y m d : N) : cell :=
  Timestamp {| year := y; month := m; day := d;
               hour := 0; minute := 0; second := 0; nanos := 0 |}.

(** 174.95, 100.0, -5.0 and 169.95 as binary64 numbers. *)
Definition f_174_95 : spec_float := S754_finite false 6155505896941158 (-45).
Definition f_100 : spec_float := S754_finite false 7036874417766400 (-46).
Definition f_minus_5 : spec_float := S754_finite true 5629499534213120 (-50).
Definition f_169_95 : spec_float := S754_finite false 5979584036496998 (-45).

Definition SHEET_HEADER : list label :=
  map lit ["Date"; "Invoice No."; "Customer Name"; "Amount"; "Amount Due";
           "Card ID"]%string.

Definition acme_row : Row :=
  row_of [ ("Date", midnight 2024 1 5); ("Invoice No.", Str (lit "00048071"));
           ("Customer Name", Str (lit "Acme Co")); ("Amount", Float f_100);
           ("Amount Due", Float f_174_95); ("Card ID", Str (lit "*None")) ]%string.

Definition beta_row : Row :=
  row_of [ ("Date", midnight 2024 1 6); ("Invoice No.", Str (lit "INV-9"));
           ("Customer Name", Str (lit "Beta LLC")); ("Amount", Float f_minus_5);
           ("Amount Due", Float f_minus_5); ("Card ID", Str (lit "C99")) ]%string.

(** The totals row: only the amount due is filled in. *)
Definition totals_row : Row :=
  row_of [ ("Date", NaT); ("Amount Due", Float f_169_95) ]%string.

(** The end-to-end scenario: two invoices and the totals row. *)
Definition sample_sheet : DataFrame :=
  {| columns := SHEET_HEADER; rows := [acme_row; beta_row; totals_row] |}.

(** An invoice whose amount due was left blank. *)
Definition blank_amount_row : Row :=
  row_of [ ("Date", midnight 2024 1 7); ("Invoice No.", Str (lit "INV-10"));
           ("Customer Name", Str (lit "Gamma Ltd")); ("Card ID", Str (lit "C7")) ]%string.

Definition blank_amount_sheet : DataFrame :=
  {| columns := SHEET_HEADER; rows := [blank_amount_row; totals_row] |}.

(** An invoice numbered with the single character SUPERSCRIPT TWO. *)
Definition superscript_row : Row :=
  row_of [ ("Date", midnight 2024 1 8); ("Invoice No.", Str [0xB2]);
           ("Customer Name", Str (lit "Delta Inc")); ("Amount", Float f_100);
           ("Amount Due", Float f_100); ("Card ID", Str (lit "C8")) ]%string.

Definition superscript_sheet : DataFrame :=
  {| columns := SHEET_HEADER; rows := [superscript_row; totals_row] |}.

(** The records of the end-to-end scenario. *)
Definition acme_record : OutputRecord :=
  {| debtorReference := Str (lit "Acme Co");
     transactionType := Str (lit "INV");
     documentNumber := Str (lit "48071");
     documentDate := Str (lit "2024-01-05");
     documentBalance := Str (lit "174.95") |}.

Definition beta_record : OutputRecord :=
  {| debtorReference := Str (lit "C99");
     transactionType := Str (lit "CRD");
     documentNumber := Str (lit "INV-9");
     documentDate := Str (lit "2024-01-06");
     documentBalance := Str (lit "-5.00") |}.

(** The row [r] of a sheet whose column [old] bears the title [new]. *)
Definition retitle (old new : label) (r : Row) : Row :=
  fun l => if PyStr.eqb l new then r old
           else if PyStr.eqb l old then NaN else r l.

(** A sheet in the same layout whose row 10 bears other titles. *)
Definition retitled_sheet : DataFrame :=
  {| columns := map lit ["Datum"; "Rechnung"; "Kunde"; "Betrag"; "Offen";
                         "Karte"]%string;
     rows := [ row_of [ ("Datum", midnight 2024 1 5);
                        ("Rechnung", Str (lit "00048071"));
                        ("Kunde", Str (lit "Acme Co"));
                        ("Betrag", Float f_100);
                        ("Offen", Float f_174_95);
                        ("Karte", Str (lit "*None")) ]%string ] |}.

(** The sample sheet with column E titled Net instead of Amount. *)
Definition net_sheet : DataFrame :=
  {| columns := map lit ["Date"; "Invoice No."; "Customer Name"; "Net";
                         "Amount Due"; "Card ID"]%string;
     rows := map (retitle (lit "Amount") (lit "Net")) (rows sample_sheet) |}.


(** Card ids around the sentinel: between blanks (a tab and a space
    before, a space and a no-break space after), in lower case, and a
    number. *)
Definition padded_none : pystr := [0x09; 0x20] ++ lit "*None" ++ [0x20; 0xA0].

Definition padded_none_row : Row :=
  row_of [ ("Date", midnight 2024 1 10); ("Invoice No.", Str (lit "INV-12"));
           ("Customer Name", Str (lit "Zeta AG")); ("Amount", Float f_100);
           ("Amount Due", Float f_100);
           ("Card ID", Str padded_none) ]%string.

Definition lowercase_none_row : Row :=
  row_of [ ("Date", midnight 2024 1 11); ("Invoice No.", Str (lit "INV-13"));
           ("Customer Name", Str (lit "Eta BV")); ("Amount", Float f_100);
           ("Amount Due", Float f_100); ("Card ID", Str (lit "*none")) ]%string.

Definition numbered_card_row : Row :=
  row_of [ ("Date", midnight 2024 1 12); ("Invoice No.", Str (lit "INV-14"));
           ("Customer Name", Str (lit "Theta SA")); ("Amount", Float f_100);
           ("Amount Due", Float f_100); ("Card ID", Int 1042) ]%string.

Definition sentinel_sheet : DataFrame :=
  {| columns := SHEET_HEADER;
     rows := [acme_row; padded_none_row; lowercase_none_row;
              numbered_card_row; beta_row; totals_row] |}.

(** A Date column that holds a date in one row and text in another: the
    date cell is a [datetime.datetime], the blank cell of the totals row
    the float NaN. *)
Definition dated_row : Row :=
  row_of [ ("Date", Datetime {| dt_year := 2024; dt_month := 1; dt_day := 5;
                                dt_hour := 0; dt_minute := 0; dt_second := 0;
                                dt_microsecond := 0 |});
           ("Invoice No.", Str (lit "00048071"));
           ("Customer Name", Str (lit "Acme Co")); ("Amount", Float f_100);
           ("Amount Due", Float f_174_95); ("Card ID", Str (lit "*None")) ]%string.

Definition undated_row : Row :=
  row_of [ ("Date", Str (lit "TBA")); ("Invoice No.", Str (lit "INV-9"));
           ("Customer Name", Str (lit "Beta LLC")); ("Amount", Float f_minus_5);
           ("Amount Due", Float f_minus_5); ("Card ID", Str (lit "C99")) ]%string.

Definition plain_totals_row : Row :=
  row_of [ ("Amount Due", Float f_169_95) ]%string.

Definition mixed_date_sheet : DataFrame :=
  {| columns := SHEET_HEADER;
     rows := [dated_row; undated_row; plain_totals_row] |}.

(** Uploads for the samples: each file is the sheet read from it, or the
    error raised on reading it. *)
Definition read_sample (f : result DataFrame) : result DataFrame := f.

Definition frame_of (r : result DataFrame) : DataFrame :=
  the {| columns := []; rows := [] |} r.

Definition sample_output : DataFrame :=
  frame_of (process_excel _ read_sample (Ok sample_sheet)).

Definition blank_amount_output : DataFrame :=
  frame_of (process_excel _ read_sample (Ok blank_amount_sheet)).


Definition sentinel_output : DataFrame :=
  frame_of (process_excel _ read_sample (Ok sentinel_sheet)).

(* ================================================================== *)
(** ** Vocabulary of the further properties *)

(** Whether the page shows an error. *)
Definition shows_error (page : list element) : bool :=
  existsb (fun w => match w with StError _ => true | _ => false end) page.

(** An amount that both compares with zero and formats: a float, or an
    [int] within the range of a float. *)
Definition amount_ok (v : cell) : Prop :=
  match v with
  | Float _ => True
  | Int z =>
      match PyFloat.float_of_int z with
      | S754_infinity _ => False
      | _ => True
      end
  | _ => False
  end.

(** An invoice number that converts: when its trimmed text is made of
    digit characters, these are all decimal and within the limit of
    [int]. *)
Definition invoice_ok (v : cell) : Prop :=
  isna v = false ->
  isdigit (strip (py_str v)) = true ->
  (List.length (strip (py_str v)) <= int_max_str_digits)%nat /\
  forallb isdecimal_char (strip (py_str v)) = true.

(** Two rows with the same cells under the given labels. *)
Definition agree_on (names : list label) (r r' : Row) : Prop :=
  forall n, In n names -> r n = r' n.

(** The records of a run, or its exception. *)
Definition run_records {file} (read_excel : file -> result DataFrame)
    (f : file) : result (list OutputRecord) :=
  out <- process_excel file read_excel f ;;
  Ok (map record_of (rows out)).

(** Text without blank characters at either end. *)
Definition trimmed (s : pystr) : Prop :=
  match s with
  | [] => True
  | c :: _ => isspace_char c = false /\ isspace_char (last s c) = false
  end.

Definition starts_with_minus (s : pystr) : bool :=
  match s with
  | c :: _ => c =? 0x2D
  | [] => false
  end.

(** The three conversions that can raise, column after column, over the
    rows kept. *)
Definition conversions (kept : list Row) : result unit :=
  _ <- mapM (fun r : Row => transaction_type (r AMOUNT_DUE)) kept ;;
  _ <- mapM (fun r : Row => convert_invoice (r INVOICE_NO)) kept ;;
  _ <- mapM (fun r : Row => format_2f (r AMOUNT_DUE)) kept ;;
  Ok tt.

(** The number 48 in Arabic-Indic digits (U+0664, U+0668). *)
Definition arabic_48 : pystr := [0x664; 0x668].

(** Text without the asterisk. *)
Definition no_star (s : pystr) : Prop := Forall (fun c => c <> 0x2A) s.

(** An invoice whose amount due holds text. *)
Definition text_amount_row : Row :=
  row_of [ ("Date", midnight 2024 1 9); ("Invoice No.", Str (lit "INV-11"));
           ("Customer Name", Str (lit "Epsilon Oy")); ("Amount", Float f_100);
           ("Amount Due", Str (lit "pending")); ("Card ID", Str (lit "C9")) ]%string.

(** A good invoice, then the one with the text amount. *)
Definition pending_sheet : DataFrame :=
  {| columns := SHEET_HEADER;
     rows := [acme_row; text_amount_row; totals_row] |}.

(** The superscript invoice first, then the text amount. *)
Definition mixed_sheet : DataFrame :=
  {| columns := SHEET_HEADER;
     rows := [superscript_row; text_amount_row; totals_row] |}.

(** A sheet whose column F is titled Balance instead of Amount Due. *)
Definition no_amount_sheet : DataFrame :=
  {| columns := map lit ["Date"; "Invoice No."; "Customer Name"; "Amount";
                         "Balance"; "Card ID"]%string;
     rows := [retitle AMOUNT_DUE (lit "Balance") acme_row] |}.

(** The sample sheet with column E titled Notes and holding remarks in
    place of the amounts. *)
Definition annotated_sheet : DataFrame :=
  {| columns := map lit ["Date"; "Invoice No."; "Customer Name"; "Notes";
                         "Amount Due"; "Card ID"]%string;
     rows := map (fun r => update (update r (lit "Amount") NaN)
                                  (lit "Notes") (Str (lit "checked")))
                 (rows sample_sheet) |}.

(* ================================================================== *)
(** ** Results and traversals *)

Lemma bind_Ok {A B} (c : result A) (k : A -> result B) b :
  bind c k = Ok b <-> exists a, c = Ok a /\ k a = Ok b.
Proof.
  destruct c as [a|e]; simpl; split.
  - intros H. now exists a.
  - now intros (a' & [= <-] & H).
  - discriminate.
  - now intros (a' & [=] & _).
Qed.

Lemma mapM_map {A B C} (f : B -> result C) (g : A -> B) l :
  mapM f (map g l) = mapM (fun a => f (g a)) l.
Proof.
  induction l as [|a l IH]; simpl; [reflexivity|].
  now rewrite IH.
Qed.

Lemma mapM_pure {A B} (f : A -> result B) (g : A -> B) l :
  (forall a, In a l -> f a = Ok (g a)) -> mapM f l = Ok (map g l).
Proof.
  induction l as [|a l IH]; simpl; intros H; [reflexivity|].
  rewrite (H a) by now left. simpl. rewrite IH by auto. reflexivity.
Qed.

Lemma mapM_Ok_inv {A B} (d : B) (f : A -> result B) l bs :
  mapM f l = Ok bs ->
  bs = map (fun a => the d (f a)) l /\ Forall (fun a => succeeds (f a)) l.
Proof.
  revert bs. induction l as [|a l IH]; simpl; intros bs H.
  - injection H as <-. split; constructor.
  - apply bind_Ok in H as (b & Hb & H).
    apply bind_Ok in H as (bs' & Hbs & [= <-]).
    destruct (IH _ Hbs) as [-> HF]. rewrite Hb. simpl. split; [reflexivity|].
    constructor; [now exists b | assumption].
Qed.

Lemma mapM_succeeds {A B} (d : B) (f : A -> result B) l :
  Forall (fun a => succeeds (f a)) l ->
  mapM f l = Ok (map (fun a => the d (f a)) l).
Proof.
  intros H. apply mapM_pure. intros a Ha.
  rewrite Forall_forall in H. destruct (H a Ha) as [b ->]. reflexivity.
Qed.

(* ================================================================== *)
(** ** Frames *)

Lemma eqb_eq (s t : pystr) : PyStr.eqb s t = true <-> s = t.
Proof.
  unfold PyStr.eqb. destruct (list_eq_dec N.eq_dec s t); split; congruence.
Qed.

Lemma eqb_refl (s : pystr) : PyStr.eqb s s = true.
Proof. now apply eqb_eq. Qed.

Lemma has_column_setitem df name vs n :
  has_column (setitem df name vs) n = has_column df n || PyStr.eqb n name.
Proof.
  unfold setitem, has_column at 1. simpl.
  destruct (has_column df name) eqn:Hn.
  - fold (has_column df n). destruct (PyStr.eqb n name) eqn:E.
    + apply eqb_eq in E. subst. rewrite Hn. reflexivity.
    + now rewrite orb_false_r.
  - rewrite existsb_app. simpl. now rewrite orb_false_r.
Qed.

Lemma combine_map_l {A B C} (g : A -> B) (h : A -> C) (l : list A) :
  combine (map g l) (map h l) = map (fun a => (g a, h a)) l.
Proof.
  induction l as [|a l IH]; simpl; [reflexivity | now rewrite IH].
Qed.

(** Setting a column computed row by row. *)
Lemma rows_setitem_map df name (g : Row -> Row) (h : Row -> cell) l :
  rows df = map g l ->
  rows (setitem df name (map h l))
  = map (fun r => update (g r) name (h r)) l.
Proof.
  intros E. unfold setitem. simpl. rewrite E, combine_map_l, map_map.
  reflexivity.
Qed.

(** [dropna] either raises on a missing label or keeps the rows that
    have all the listed fields. *)
Lemma dropna_Ok subset df df' :
  dropna subset df = Ok df' <->
  forallb (has_column df) subset = true /\
  df' = {| columns := columns df;
           rows := filter (notna_all subset) (rows df) |}.
Proof.
  unfold dropna.
  destruct (filter (fun n => negb (has_column df n)) subset) as [|m ms] eqn:E.
  - split.
    + intros [= <-]. split; [|reflexivity].
      apply forallb_forall. intros n Hn.
      destruct (has_column df n) eqn:Hc; [reflexivity|].
      assert (In n []) as [].
      rewrite <- E. apply filter_In. now rewrite Hc.
    + now intros [_ ->].
  - split; [discriminate|]. intros [H _].
    rewrite forallb_forall in H.
    assert (In m (m :: ms)) as Hm by now left.
    rewrite <- E in Hm. apply filter_In in Hm as [Hm Hc].
    rewrite (H m Hm) in Hc. discriminate.
Qed.

Lemma dropna_Raise subset df e :
  dropna subset df = Raise e ->
  exists n, In n subset /\ has_column df n = false.
Proof.
  unfold dropna.
  destruct (filter (fun n => negb (has_column df n)) subset) as [|m ms] eqn:E;
    [discriminate|].
  intros _. exists m.
  assert (In m (m :: ms)) as Hm by now left.
  rewrite <- E in Hm. apply filter_In in Hm as [Hm Hc].
  split; [assumption|]. now destruct (has_column df m).
Qed.

(* ================================================================== *)
(** ** The pipeline, column by column and row by row *)

(** Comparisons of two labels of the source, decided by computation. *)
Ltac label_eqb :=
  repeat match goal with
  | |- context [PyStr.eqb ?a ?b] =>
      let v := eval vm_compute in (PyStr.eqb a b) in
      change (PyStr.eqb a b) with v
  end.

(** Reading a row through the columns set after it was read. *)
Ltac read_through :=
  cbv beta delta [update]; label_eqb; cbv beta iota.

Lemma transform_succeeds r :
  succeeds (transform r) <->
  succeeds (transaction_type (r AMOUNT_DUE)) /\
  succeeds (convert_invoice (r INVOICE_NO)) /\
  succeeds (format_2f (r AMOUNT_DUE)).
Proof.
  unfold transform, succeeds. split.
  - intros [rec H].
    destruct (transaction_type (r AMOUNT_DUE)); [|discriminate].
    destruct (convert_invoice (r INVOICE_NO)); [|discriminate].
    destruct (format_2f (r AMOUNT_DUE)); [|discriminate].
    repeat split; eexists; reflexivity.
  - intros ([t ->] & [n ->] & [b ->]). simpl. eexists; reflexivity.
Qed.

Lemma record_of_out_row r rec :
  transform r = Ok rec -> record_of (out_row r) = rec.
Proof.
  unfold transform. intros H.
  destruct (transaction_type (r AMOUNT_DUE)) as [t|] eqn:Ht; [|discriminate].
  destruct (convert_invoice (r INVOICE_NO)) as [n|] eqn:Hn; [|discriminate].
  destruct (format_2f (r AMOUNT_DUE)) as [b|] eqn:Hb; [|discriminate].
  simpl in H. injection H as <-.
  unfold record_of, out_row. rewrite Ht, Hn, Hb. simpl the.
  f_equal; unfold update; label_eqb; reflexivity.
Qed.

Lemma process_excel_derive {file} (read_excel : file -> result DataFrame) f :
  process_excel file read_excel f
  = (df <- read_excel f ;; df <- dropna REQUIRED df ;; derive df).
Proof. reflexivity. Qed.

Lemma required_columns df :
  forallb (has_column df) REQUIRED = true ->
  has_column df DATE = true /\ has_column df INVOICE_NO = true /\
  has_column df CUSTOMER_NAME = true /\ has_column df CARD_ID = true.
Proof.
  unfold REQUIRED. simpl. rewrite !andb_true_iff. tauto.
Qed.

Lemma debtor_reference_pure df r :
  forallb (has_column df) REQUIRED = true ->
  debtor_reference df r = Ok (debtor_of r).
Proof.
  intros H. apply required_columns in H as (_ & _ & Hn & Hc).
  unfold debtor_reference, debtor_of, loc. rewrite Hc, Hn. simpl.
  destruct (PyStr.eqb _ _); reflexivity.
Qed.

(** One derived column: read [name], convert each cell with [f], hand
    the texts to the rest of the function. *)
Lemma stage {C} df name (f : cell -> result pystr) (g : Row -> Row) l
    (rest : list pystr -> result C) out :
  rows df = map g l ->
  has_column df name = true ->
  (col <- getitem df name ;; vals <- series_apply col f ;; rest vals) = Ok out
  <->
  Forall (fun r => succeeds (f (g r name))) l /\
  rest (map (fun r => the [] (f (g r name))) l) = Ok out.
Proof.
  intros E Hc. unfold getitem, series_apply. rewrite Hc, E, map_map.
  cbn [bind]. rewrite mapM_map. cbv beta. split.
  - intros H. apply bind_Ok in H as (vals & Hv & H).
    apply (mapM_Ok_inv (B:=pystr) []) in Hv as [-> HF]. auto.
  - intros [HF H].
    rewrite (mapM_succeeds (B:=pystr) [] (fun r => f (g r name)) l HF).
    exact H.
Qed.

Lemma derive_Ok df out :
  forallb (has_column df) REQUIRED = true ->
  derive df = Ok out <->
  has_column df AMOUNT_DUE = true /\
  Forall (fun r => succeeds (transform r)) (rows df) /\
  out = {| columns := FINAL; rows := map out_row (rows df) |}.
Proof.
  intros Hreq. pose proof (required_columns df Hreq) as (Hd & Hi & Hn & Hc).
  unfold derive, apply_rows.
  rewrite (mapM_pure _ debtor_of) by (intros; now apply debtor_reference_pure).
  cbn [bind].
  (* Debtor Reference *)
  set (df1 := setitem df DEBTOR_REFERENCE _).
  set (g1 := fun r : Row => update r DEBTOR_REFERENCE (debtor_of r)).
  assert (R1 : rows df1 = map g1 (rows df)).
  { subst df1. apply (rows_setitem_map df _ (fun r => r)). now rewrite map_id. }
  assert (C1 : forall n, has_column df1 n
                         = has_column df n || PyStr.eqb n DEBTOR_REFERENCE).
  { intros n. subst df1. apply has_column_setitem. }
  clearbody df1.
  destruct (has_column df AMOUNT_DUE) eqn:Ha.
  2:{ unfold getitem at 1. rewrite C1, Ha. label_eqb. cbn.
      split; [discriminate | intros [[=] _]]. }
  (* Transaction Type *)
  rewrite (stage df1 AMOUNT_DUE _ _ _ _ _ R1) by (rewrite C1, Ha; reflexivity).
  rewrite map_map. subst g1. read_through.
  set (df2 := setitem df1 TRANSACTION_TYPE _).
  set (g2 := fun r : Row =>
               update (update r DEBTOR_REFERENCE (debtor_of r))
                 TRANSACTION_TYPE
                 (Str (the [] (transaction_type (r AMOUNT_DUE))))).
  assert (R2 : rows df2 = map g2 (rows df)).
  { subst df2. apply (rows_setitem_map df1 _ _ _ _ R1). }
  assert (C2 : forall n, has_column df2 n
                         = has_column df1 n || PyStr.eqb n TRANSACTION_TYPE).
  { intros n. subst df2. apply has_column_setitem. }
  clearbody df2.
  (* Document Number *)
  rewrite (stage df2 INVOICE_NO _ _ _ _ _ R2)
    by (rewrite C2, C1, Hi; reflexivity).
  rewrite map_map. subst g2. read_through.
  set (df3 := setitem df2 DOCUMENT_NUMBER _).
  set (g3 := fun r : Row =>
               update
                 (update (update r DEBTOR_REFERENCE (debtor_of r))
                    TRANSACTION_TYPE
                    (Str (the [] (transaction_type (r AMOUNT_DUE)))))
                 DOCUMENT_NUMBER
                 (Str (the [] (convert_invoice (r INVOICE_NO))))).
  assert (R3 : rows df3 = map g3 (rows df)).
  { subst df3. apply (rows_setitem_map df2 _ _ _ _ R2). }
  assert (C3 : forall n, has_column df3 n
                         = has_column df2 n || PyStr.eqb n DOCUMENT_NUMBER).
  { intros n. subst df3. apply has_column_setitem. }
  clearbody df3.
  (* Document Date *)
  rewrite (stage df3 DATE _ _ _ _ _ R3)
    by (rewrite C3, C2, C1, Hd; reflexivity).
  rewrite map_map. subst g3. read_through. cbn [the].
  set (df4 := setitem df3 DOCUMENT_DATE _).
  set (g4 := fun r : Row =>
               update
                 (update
                    (update (update r DEBTOR_REFERENCE (debtor_of r))
                       TRANSACTION_TYPE
                       (Str (the [] (transaction_type (r AMOUNT_DUE)))))
                    DOCUMENT_NUMBER
                    (Str (the [] (convert_invoice (r INVOICE_NO)))))
                 DOCUMENT_DATE (Str (convert_date (r DATE)))).
  assert (R4 : rows df4 = map g4 (rows df)).
  { subst df4. apply (rows_setitem_map df3 _ _ _ _ R3). }
  assert (C4 : forall n, has_column df4 n
                         = has_column df3 n || PyStr.eqb n DOCUMENT_DATE).
  { intros n. subst df4. apply has_column_setitem. }
  clearbody df4.
  (* Document Balance *)
  rewrite (stage df4 AMOUNT_DUE _ _ _ _ _ R4)
    by (rewrite C4, C3, C2, C1, Ha; reflexivity).
  rewrite map_map. subst g4. read_through.
  set (df5 := setitem df4 DOCUMENT_BALANCE _).
  assert (R5 : rows df5 = map out_row (rows df)).
  { subst df5. apply (rows_setitem_map df4 _ _ _ _ R4). }
  assert (C5 : forall n, has_column df5 n
                         = has_column df4 n || PyStr.eqb n DOCUMENT_BALANCE).
  { intros n. subst df5. apply has_column_setitem. }
  clearbody df5.
  (* the final selection *)
  assert (S : select df5 FINAL
              = Ok {| columns := FINAL; rows := map out_row (rows df) |}).
  { unfold select, FINAL. cbn [filter]. rewrite !C5, !C4, !C3, !C2, !C1.
    label_eqb. rewrite ?orb_true_r. cbn. now rewrite R5. }
  rewrite S. clear. rewrite !Forall_forall. split.
  - intros (Ht & Hn & _ & Hb & [= <-]). repeat split.
    intros r Hr. apply transform_succeeds. auto.
  - intros (_ & H & ->).
    repeat split; try (intros r Hr; apply H, transform_succeeds in Hr; tauto).
    intros r _. eexists; reflexivity.
Qed.

Section Pipeline.

Variable file : Type.
Variable read_excel : file -> result DataFrame.

(** [process_excel] succeeds exactly when the sheet is read, the five
    consumed columns are there and every surviving row converts; its
    result is then the surviving rows, each turned into its final row. *)
Lemma process_excel_Ok f out :
  process_excel file read_excel f = Ok out <->
  exists df,
    read_excel f = Ok df /\
    forallb (has_column df) (AMOUNT_DUE :: REQUIRED) = true /\
    Forall (fun r => succeeds (transform r)) (survivors df) /\
    out = {| columns := FINAL; rows := map out_row (survivors df) |}.
Proof.
  rewrite process_excel_derive. split.
  - intros H. apply bind_Ok in H as (df & Hread & H).
    apply bind_Ok in H as (df' & Hdrop & H).
    apply dropna_Ok in Hdrop as [Hreq ->].
    apply derive_Ok in H; [|exact Hreq]. cbn [rows] in H.
    destruct H as (Ha & HF & ->). exists df. cbn [forallb].
    unfold has_column at 1 in Ha. cbn [columns] in Ha.
    fold (has_column df AMOUNT_DUE) in Ha. rewrite Ha, Hreq. auto.
  - intros (df & Hread & Hcols & HF & ->). rewrite Hread. cbn [bind].
    cbn [forallb] in Hcols. apply andb_true_iff in Hcols as [Ha Hreq].
    destruct (dropna REQUIRED df) as [df'|e] eqn:Hdrop.
    + apply dropna_Ok in Hdrop as [_ ->]. cbn [bind].
      apply derive_Ok; [exact Hreq|]. cbn [rows]. auto.
    + apply dropna_Raise in Hdrop as (n & Hn & Hc).
      rewrite forallb_forall in Hreq. rewrite (Hreq n Hn) in Hc. discriminate.
Qed.

End Pipeline.

(* ================================================================== *)
(** ** Decimal numerals *)

Lemma digits_of_uint_lt d : Forall (fun x => x < 10) (digits_of_uint d).
Proof. induction d; simpl; constructor; (lia || assumption). Qed.

Lemma of_uint_acc_fold d acc :
  Npos (Pos.of_uint_acc d acc)
  = fold_left (fun a x => 10 * a + x) (digits_of_uint d) (Npos acc).
Proof.
  revert acc.
  induction d; intros acc; cbn [Pos.of_uint_acc digits_of_uint fold_left];
    try reflexivity; rewrite IHd; f_equal; lia.
Qed.

Lemma digits_value_of_uint d : digits_value (digits_of_uint d) = N.of_uint d.
Proof.
  unfold digits_value, N.of_uint.
  induction d; cbn [Pos.of_uint digits_of_uint fold_left];
    try reflexivity; try assumption; rewrite of_uint_acc_fold; reflexivity.
Qed.

Lemma decimal_value_ascii x : x < 10 -> decimal_value (ascii_digit x) = Some x.
Proof.
  intros H. unfold decimal_value, ascii_digit.
  assert (E : in_range (0x30 + x) (0x30, 0x39) = true).
  { unfold in_range; simpl fst; simpl snd.
    apply andb_true_iff; split; apply N.leb_le; lia. }
  unfold decimal_ranges. cbn [find]. rewrite E. f_equal.
  replace (0x30 + x - 0x30) with x by lia. apply N.mod_small. exact H.
Qed.

Lemma decimal_values_chars d :
  decimal_values (chars_of_uint d) = Some (digits_of_uint d).
Proof.
  unfold chars_of_uint. pose proof (digits_of_uint_lt d) as H.
  induction H as [|x l Hx _ IH]; simpl; [reflexivity|].
  now rewrite decimal_value_ascii, IH.
Qed.

Lemma str_of_N_of_uint d : str_of_N (N.of_uint d) = chars_of_uint (Decimal.unorm d).
Proof. unfold str_of_N, chars_of_uint. now rewrite DecimalN.Unsigned.to_of. Qed.

Lemma chars_unorm d :
  d <> Decimal.Nil ->
  chars_of_uint (Decimal.unorm d) = drop_leading_zeros (chars_of_uint d).
Proof.
  induction d; intros Hd; try congruence;
    try (unfold chars_of_uint; simpl; destruct (digits_of_uint d); reflexivity).
  destruct d; try reflexivity; apply IHd; discriminate.
Qed.

Lemma ascii_digits_chars t :
  forallb is_ascii_digit t = true -> exists d, t = chars_of_uint d.
Proof.
  induction t as [|c t IH]; simpl; intros H.
  - now exists Decimal.Nil.
  - apply andb_true_iff in H as [Hc Ht]. destruct (IH Ht) as [d ->].
    unfold is_ascii_digit in Hc. apply andb_true_iff in Hc as [H1 H2].
    apply N.leb_le in H1, H2.
    assert (E : c = ascii_digit (c - 0x30)) by (unfold ascii_digit; lia).
    assert (B : c - 0x30 < 10) by lia.
    rewrite E. clear E H1 H2. set (x := c - 0x30) in *. clearbody x.
    assert (Hx : x = 0 \/ x = 1 \/ x = 2 \/ x = 3 \/ x = 4 \/ x = 5 \/ x = 6
                 \/ x = 7 \/ x = 8 \/ x = 9) by lia.
    repeat destruct Hx as [->|Hx]; try subst x;
      [ exists (Decimal.D0 d) | exists (Decimal.D1 d) | exists (Decimal.D2 d)
      | exists (Decimal.D3 d) | exists (Decimal.D4 d) | exists (Decimal.D5 d)
      | exists (Decimal.D6 d) | exists (Decimal.D7 d) | exists (Decimal.D8 d)
      | exists (Decimal.D9 d) ]; reflexivity.
Qed.

Lemma isdigit_ascii t :
  t <> [] -> forallb is_ascii_digit t = true -> isdigit t = true.
Proof.
  intros Hne H. destruct t as [|c t]; [congruence|].
  unfold isdigit. apply forallb_forall. intros x Hx.
  rewrite forallb_forall in H. specialize (H x Hx).
  unfold isdigit_char, isdecimal_char, decimal_ranges. cbn [existsb].
  unfold is_ascii_digit in H. unfold in_range at 1. cbn [fst snd].
  rewrite H. reflexivity.
Qed.

(** A string of ASCII digits within the limit is read as a number and
    written back without its leading zeros. *)
Lemma convert_invoice_ascii_digits v t :
  isna v = false ->
  strip (py_str v) = t ->
  t <> [] -> forallb is_ascii_digit t = true ->
  (List.length t <= int_max_str_digits)%nat ->
  convert_invoice v = Ok (drop_leading_zeros t).
Proof.
  intros Hna Ht Hne Hd Hlen. unfold convert_invoice. rewrite Hna, Ht.
  rewrite (isdigit_ascii t Hne Hd). unfold py_int.
  apply Nat.ltb_ge in Hlen. rewrite Hlen.
  destruct (ascii_digits_chars t Hd) as [d ->].
  rewrite decimal_values_chars. cbn [bind].
  rewrite digits_value_of_uint, str_of_N_of_uint, chars_unorm; [reflexivity|].
  intros ->. now apply Hne.
Qed.

(* ================================================================== *)
(** ** Records of the result *)

Lemma notna_all_required r :
  notna_all REQUIRED r = true <-> has_required r.
Proof.
  unfold notna_all, REQUIRED, has_required. cbn [forallb].
  rewrite !andb_true_iff, !negb_true_iff. tauto.
Qed.

Lemma survivors_In df r :
  In r (survivors df) <-> In r (rows df) /\ has_required r.
Proof.
  unfold survivors. rewrite filter_In, notna_all_required. reflexivity.
Qed.

Lemma Forall2_map_r {A B} (P : A -> B -> Prop) (g : A -> B) l :
  Forall (fun a => P a (g a)) l -> Forall2 P l (map g l).
Proof. induction 1; simpl; constructor; assumption. Qed.

Lemma transform_out_row r :
  succeeds (transform r) -> transform r = Ok (record_of (out_row r)).
Proof.
  intros [rec H]. rewrite H. f_equal. symmetry. now apply record_of_out_row.
Qed.

Lemma succeeds_dec {A} (r : result A) : {succeeds r} + {~ succeeds r}.
Proof.
  destruct r as [a|e]; [left; now exists a | right; intros [a H]; discriminate].
Qed.

Section Records.

Variable file : Type.
Variable read_excel : file -> result DataFrame.

(** A successful run read a frame with the consumed columns, and its
    rows are the surviving rows, one record each, in order. *)
Lemma process_excel_records f out :
  process_excel file read_excel f = Ok out ->
  exists df,
    read_excel f = Ok df /\
    forallb (has_column df) CONSUMED = true /\
    columns out = FINAL /\
    rows out = map out_row (survivors df) /\
    Forall2 (fun raw o => transform raw = Ok (record_of o))
            (survivors df) (rows out).
Proof.
  intros H. apply process_excel_Ok in H as (df & Hread & Hcols & HF & ->).
  exists df. cbn [columns rows]. repeat split; try assumption.
  apply Forall2_map_r. eapply Forall_impl; [|exact HF].
  intros r Hr. now apply transform_out_row.
Qed.

(** A run fails exactly when reading fails, a consumed column is
    missing, or some surviving row does not convert. *)
Lemma process_excel_Raise f e :
  process_excel file read_excel f = Raise e ->
  read_excel f = Raise e \/
  exists df, read_excel f = Ok df /\
    (forallb (has_column df) CONSUMED = false \/
     exists r, In r (survivors df) /\ ~ succeeds (transform r)).
Proof.
  intros H. destruct (read_excel f) as [df|e'] eqn:Hread.
  - right. exists df. split; [reflexivity|].
    destruct (forallb (has_column df) CONSUMED) eqn:Hc; [right | now left].
    destruct (Forall_Exists_dec (fun r => succeeds (transform r))
                (fun r => succeeds_dec (transform r))
                (survivors df)) as [HF|HE].
    + exfalso.
      assert (process_excel file read_excel f
              = Ok {| columns := FINAL; rows := map out_row (survivors df) |}).
      { apply process_excel_Ok. exists df. auto. }
      congruence.
    + apply Exists_exists in HE as (r & Hr & Hn). exists r. auto.
  - left. rewrite process_excel_derive, Hread in H. exact H.
Qed.

End Records.

(* ================================================================== *)
(** ** Filtering and composition *)

Lemma filter_Forall {A} (p : A -> bool) l :
  Forall (fun a => p a = true) l -> filter p l = l.
Proof.
  induction 1 as [|a l Ha _ IH]; simpl; [reflexivity|].
  now rewrite Ha, IH.
Qed.

Lemma survivors_totals df data totals :
  rows df = data ++ [totals] ->
  Forall has_required data -> ~ has_required totals ->
  survivors df = data.
Proof.
  intros E Hd Ht. unfold survivors. rewrite E, filter_app.
  rewrite filter_Forall.
  - cbn [filter]. destruct (notna_all REQUIRED totals) eqn:Hn.
    + apply notna_all_required in Hn. contradiction.
    + apply List.app_nil_r.
  - eapply Forall_impl; [|exact Hd]. intros r. apply notna_all_required.
Qed.

Lemma isna_blank v : isna v = true <-> blank v.
Proof.
  unfold blank, NaN. split.
  - destruct v as [x| | | | |]; try discriminate.
    + destruct x; try discriminate. now left.
    + now right.
  - intros [->| ->]; reflexivity.
Qed.

Lemma has_required_complete r : has_required r <-> complete r.
Proof.
  unfold has_required, complete. rewrite <- !isna_blank.
  rewrite !not_true_iff_false. tauto.
Qed.

(** The rows [dropna] keeps are the complete rows of the table. *)
Lemma kept_rows_filter table kept :
  kept_rows table kept <-> kept = filter (notna_all REQUIRED) table.
Proof.
  split.
  - induction 1 as [|r table kept Hc _ IH|r table kept Hc _ IH]; cbn [filter].
    + reflexivity.
    + apply has_required_complete, notna_all_required in Hc.
      now rewrite Hc, IH.
    + destruct (notna_all REQUIRED r) eqn:E; [|exact IH].
      apply notna_all_required, has_required_complete in E. contradiction.
  - intros ->. induction table as [|r table IH]; cbn [filter]; [constructor|].
    destruct (notna_all REQUIRED r) eqn:E.
    + constructor; [|exact IH].
      now apply has_required_complete, notna_all_required.
    + apply kept_drop; [|exact IH]. intros Hc.
      apply has_required_complete, notna_all_required in Hc. congruence.
Qed.


(** Whether a sample row is complete, by looking at its four cells. *)
Ltac sample_complete :=
  unfold complete, blank;
  repeat split; intros [H|H]; vm_compute in H; discriminate H.

(** C1, amended.  When the run over a parsed table returns, the rows of
    the result are the complete rows of the table (date, invoice number,
    customer name and card id all filled in): each of them, in the order
    of the table, has its record at the same position, and no other row
    has one.  When the totals row at the end is the only incomplete row,
    the rows kept are all the others, and the result has one row less
    than the table. *)
Theorem filtering_rule (file : Type) (read_excel : file -> result DataFrame)
    (f : file) (df out : DataFrame) :
  read_excel f = Ok df ->
  process_excel file read_excel f = Ok out ->
  exists kept,
    kept_rows (rows df) kept /\
    (forall raw, In raw kept <-> In raw (rows df) /\ complete raw) /\
    Forall2 (fun raw o => transform raw = Ok (record_of o)) kept (rows out) /\
    (forall data totals,
        rows df = data ++ [totals] ->
        Forall complete data -> ~ complete totals ->
        kept = data /\
        (List.length (rows out) + 1 = List.length (rows df))%nat).
Proof.
  intros Hread Hrun.
  apply process_excel_records in Hrun as (df' & Hread' & _ & _ & _ & HF).
  assert (df' = df) as -> by congruence.
  exists (survivors df). split; [|split; [|split]].
  - now apply kept_rows_filter.
  - intros raw. rewrite survivors_In, has_required_complete. reflexivity.
  - exact HF.
  - intros data totals E Hd Ht.
    assert (Hs : survivors df = data).
    { apply (survivors_totals df data totals E).
      - eapply Forall_impl; [|exact Hd]. intros r. apply has_required_complete.
      - now rewrite has_required_complete. }
    split; [exact Hs|]. apply Forall2_length in HF.
    rewrite <- HF, Hs, E, length_app. reflexivity.
Qed.

Lemma filtering_rule_witness :
  read_sample (Ok sample_sheet) = Ok sample_sheet /\
  process_excel _ read_sample (Ok sample_sheet) = Ok sample_output /\
  map record_of (rows sample_output) = [acme_record; beta_record] /\
  rows sample_sheet = [acme_row; beta_row] ++ [totals_row] /\
  Forall complete [acme_row; beta_row] /\ ~ complete totals_row /\
  exists kept,
    kept_rows (rows sample_sheet) kept /\
    (forall raw, In raw kept <-> In raw (rows sample_sheet) /\ complete raw) /\
    Forall2 (fun raw o => transform raw = Ok (record_of o))
            kept (rows sample_output) /\
    (forall data totals,
        rows sample_sheet = data ++ [totals] ->
        Forall complete data -> ~ complete totals ->
        kept = data /\
        (List.length (rows sample_output) + 1
         = List.length (rows sample_sheet))%nat).
Proof.
  assert (Hrun : process_excel _ read_sample (Ok sample_sheet)
                 = Ok sample_output) by (vm_compute; reflexivity).
  assert (Hrec : map record_of (rows sample_output)
                 = [acme_record; beta_record]) by (vm_compute; reflexivity).
  assert (Hdata : Forall complete [acme_row; beta_row])
    by (repeat constructor; sample_complete).
  assert (Htot : ~ complete totals_row)
    by (intros (H & _); apply H; right; vm_compute; reflexivity).
  refine (conj eq_refl (conj Hrun (conj Hrec (conj eq_refl
            (conj Hdata (conj Htot _)))))).
  exact (filtering_rule _ read_sample (Ok sample_sheet) sample_sheet
           sample_output eq_refl Hrun).
Defined.

(** C1 as stated fails.  In the sheet with the amount due [pending] the
    totals row is the only incomplete row, yet no row reaches a result:
    the run raises on the text amount, and there is no output at all. *)
Lemma complete_rows_without_output :
  (rows pending_sheet = [acme_row; text_amount_row] ++ [totals_row] /\
   Forall complete [acme_row; text_amount_row] /\ ~ complete totals_row /\
   process_excel _ read_sample (Ok pending_sheet)
   = Raise (TypeError (Str (lit "pending")))) /\
  ~ (forall (file : Type) (read_excel : file -> result DataFrame)
            (f : file) (df : DataFrame),
        read_excel f = Ok df ->
        exists out kept,
          process_excel file read_excel f = Ok out /\
          kept_rows (rows df) kept /\
          Forall2 (fun raw o => transform raw = Ok (record_of o))
                  kept (rows out)).
Proof.
  assert (Hrun : process_excel _ read_sample (Ok pending_sheet)
                 = Raise (TypeError (Str (lit "pending"))))
    by (vm_compute; reflexivity).
  split.
  - split; [reflexivity|]. split; [repeat constructor; sample_complete|].
    split; [|exact Hrun].
    intros (H & _). apply H. right. vm_compute. reflexivity.
  - intros H.
    destruct (H _ read_sample (Ok pending_sheet) pending_sheet eq_refl)
      as (out & kept & E & _).
    rewrite Hrun in E. discriminate E.
Qed.

(** The end-to-end scenario: three rows in, two records out. *)
Example sample_run :
  process_excel _ read_sample (Ok sample_sheet) = Ok sample_output /\
  map record_of (rows sample_output) = [acme_record; beta_record].
Proof. split; vm_compute; reflexivity. Qed.



(* ================================================================== *)
(** ** Debtor reference and transaction type *)

Lemma transform_fields raw rec :
  transform raw = Ok rec ->
  debtorReference rec = debtor_of raw /\
  transaction_type (raw AMOUNT_DUE) = Ok (the [] (transaction_type (raw AMOUNT_DUE))) /\
  transactionType rec = Str (the [] (transaction_type (raw AMOUNT_DUE))) /\
  convert_invoice (raw INVOICE_NO) = Ok (the [] (convert_invoice (raw INVOICE_NO))) /\
  documentNumber rec = Str (the [] (convert_invoice (raw INVOICE_NO))) /\
  documentDate rec = Str (convert_date (raw DATE)) /\
  format_2f (raw AMOUNT_DUE) = Ok (the [] (format_2f (raw AMOUNT_DUE))) /\
  documentBalance rec = Str (the [] (format_2f (raw AMOUNT_DUE))).
Proof.
  unfold transform. intros H.
  destruct (transaction_type (raw AMOUNT_DUE)) as [t|]; [|discriminate].
  destruct (convert_invoice (raw INVOICE_NO)) as [n|]; [|discriminate].
  destruct (format_2f (raw AMOUNT_DUE)) as [b|]; [|discriminate].
  injection H as <-. cbn. repeat split; reflexivity.
Qed.

Lemma ltb_zero_negative x :
  PyFloat.ltb_zero x = true <-> strictly_negative (Float x).
Proof.
  unfold PyFloat.ltb_zero, SFltb.
  destruct x as [s|s| |s m e]; simpl; try destruct s; simpl;
    split; (discriminate || tauto).
Qed.

Lemma lt_zero_negative v b :
  lt_zero v = Ok b -> (b = true <-> strictly_negative v).
Proof.
  destruct v as [x|z| | | |]; simpl; try discriminate; intros [= <-].
  - apply ltb_zero_negative.
  - apply Z.ltb_lt.
Qed.

(** Only a number compares with zero, so [format_2f] meets nothing
    else in [process_excel]. *)
Lemma lt_zero_number v : succeeds (lt_zero v) -> exists x, as_float v = Some x.
Proof.
  destruct v; intros [b H]; try discriminate; eexists; reflexivity.
Qed.

Lemma is_zero_not_negative v : is_zero v -> ~ strictly_negative v.
Proof.
  destruct v as [x|z| | | |]; simpl; try tauto.
  - destruct x; tauto.
  - destruct z; (tauto || lia).
Qed.

Lemma transaction_type_sign v t :
  transaction_type v = Ok t ->
  (strictly_negative v -> t = lit "CRD") /\
  (~ strictly_negative v -> t = lit "INV").
Proof.
  unfold transaction_type. destruct (lt_zero v) as [b|] eqn:E; [|discriminate].
  cbn [bind]. intros [= <-]. apply lt_zero_negative in E.
  destruct b; split; intros H; try reflexivity.
  - exfalso. apply H, E. reflexivity.
  - apply E in H. discriminate.
Qed.

(** C5. The transaction type of every surviving record is [CRD] when its
    amount due is below zero and [INV] when it is not; an amount of zero
    gives [INV]. *)
Theorem transaction_type_rule (file : Type)
    (read_excel : file -> result DataFrame) (f : file) (out : DataFrame) :
  process_excel file read_excel f = Ok out ->
  exists df,
    read_excel f = Ok df /\
    Forall2
      (fun raw o =>
         (strictly_negative (raw AMOUNT_DUE) ->
          transactionType (record_of o) = Str (lit "CRD")) /\
         (~ strictly_negative (raw AMOUNT_DUE) ->
          transactionType (record_of o) = Str (lit "INV")) /\
         (is_zero (raw AMOUNT_DUE) ->
          transactionType (record_of o) = Str (lit "INV")))
      (survivors df) (rows out).
Proof.
  intros H. apply process_excel_records in H as (df & Hread & _ & _ & _ & HF).
  exists df. split; [assumption|].
  eapply Forall2_impl; [|exact HF]. intros raw o Ht.
  apply transform_fields in Ht as (_ & Ht & -> & _).
  apply transaction_type_sign in Ht as [Hneg Hpos].
  split; [|split].
  - intros H. now rewrite Hneg.
  - intros H. now rewrite Hpos.
  - intros H. now rewrite Hpos by now apply is_zero_not_negative.
Qed.

Lemma transaction_type_rule_witness :
  process_excel _ read_sample (Ok sample_sheet) = Ok sample_output /\
  exists df,
    read_sample (Ok sample_sheet) = Ok df /\
    Forall2
      (fun raw o =>
         (strictly_negative (raw AMOUNT_DUE) ->
          transactionType (record_of o) = Str (lit "CRD")) /\
         (~ strictly_negative (raw AMOUNT_DUE) ->
          transactionType (record_of o) = Str (lit "INV")) /\
         (is_zero (raw AMOUNT_DUE) ->
          transactionType (record_of o) = Str (lit "INV")))
      (survivors df) (rows sample_output).
Proof.
  split; [vm_compute; reflexivity|].
  apply (transaction_type_rule _ read_sample (Ok sample_sheet) sample_output).
  vm_compute; reflexivity.
Defined.

(** The sign rule on the amounts -10.00, 0 and 10.00. *)
Example transaction_type_samples :
  transaction_type (Float (S754_finite true 5629499534213120 (-49)))
    = Ok (lit "CRD") /\
  transaction_type (Float (S754_zero false)) = Ok (lit "INV") /\
  transaction_type (Int 0) = Ok (lit "INV") /\
  transaction_type (Float (S754_finite false 5629499534213120 (-49)))
    = Ok (lit "INV").
Proof. repeat split. Qed.

(** C10. A row with its four required fields and a blank amount due is
    kept by the filter; its amount compares as not negative and formats
    as [nan], so in the result its transaction type is [INV] and its
    document balance is the text [nan]. *)
Theorem blank_amount_survives (file : Type)
    (read_excel : file -> result DataFrame) (f : file) (out : DataFrame) :
  process_excel file read_excel f = Ok out ->
  exists df,
    read_excel f = Ok df /\
    (forall raw,
        In raw (rows df) -> has_required raw -> isna (raw AMOUNT_DUE) = true ->
        In raw (survivors df)) /\
    Forall2
      (fun raw o =>
         isna (raw AMOUNT_DUE) = true ->
         transactionType (record_of o) = Str (lit "INV") /\
         documentBalance (record_of o) = Str (lit "nan"))
      (survivors df) (rows out) /\
    transaction_type NaN = Ok (lit "INV") /\
    format_2f NaN = Ok (lit "nan").
Proof.
  intros H. apply process_excel_records in H as (df & Hread & _ & _ & _ & HF).
  exists df. split; [assumption|]. split; [|split; [|split; reflexivity]].
  - intros raw Hin Hreq _. apply survivors_In. auto.
  - eapply Forall2_impl; [|exact HF]. intros raw o Ht Hna.
    apply transform_fields in Ht as (_ & Ht & -> & _ & _ & _ & Hb & ->).
    destruct (raw AMOUNT_DUE) as [x| | | | |]; try discriminate.
    destruct x; try discriminate. split; reflexivity.
Qed.

Lemma blank_amount_survives_witness :
  process_excel _ read_sample (Ok blank_amount_sheet) = Ok blank_amount_output /\
  exists df,
    read_sample (Ok blank_amount_sheet) = Ok df /\
    (forall raw,
        In raw (rows df) -> has_required raw -> isna (raw AMOUNT_DUE) = true ->
        In raw (survivors df)) /\
    Forall2
      (fun raw o =>
         isna (raw AMOUNT_DUE) = true ->
         transactionType (record_of o) = Str (lit "INV") /\
         documentBalance (record_of o) = Str (lit "nan"))
      (survivors df) (rows blank_amount_output) /\
    transaction_type NaN = Ok (lit "INV") /\
    format_2f NaN = Ok (lit "nan").
Proof.
  split; [vm_compute; reflexivity|].
  apply (blank_amount_survives _ read_sample (Ok blank_amount_sheet)
           blank_amount_output).
  vm_compute; reflexivity.
Defined.

(** The blank-amount invoice in the result: kept, [INV], [nan]. *)
Example blank_amount_sample :
  map (fun o => (o TRANSACTION_TYPE, o DOCUMENT_BALANCE))
      (rows blank_amount_output)
  = [(Str (lit "INV"), Str (lit "nan"))].
Proof. vm_compute. reflexivity. Qed.

(* ================================================================== *)
(** ** Document number *)

Lemma convert_invoice_blank v : isna v = true -> convert_invoice v = Ok [].
Proof. unfold convert_invoice. now intros ->. Qed.

Lemma isdigit_false_In t c :
  In c t -> isdigit_char c = false -> isdigit t = false.
Proof.
  intros Hin Hc. destruct t as [|c0 t]; [reflexivity|].
  unfold isdigit. apply not_true_is_false. intros H.
  rewrite forallb_forall in H. rewrite (H c Hin) in Hc. discriminate.
Qed.

(** Text with a character that is no digit (a letter, a dash, a minus
    sign, a full stop) passes through trimmed and otherwise unchanged. *)
Lemma convert_invoice_passthrough v c :
  isna v = false ->
  In c (strip (py_str v)) -> isdigit_char c = false ->
  convert_invoice v = Ok (strip (py_str v)).
Proof.
  intros Hna Hin Hc. unfold convert_invoice.
  now rewrite Hna, (isdigit_false_In _ c Hin Hc).
Qed.

Lemma decimal_values_None t c :
  In c t -> decimal_value c = None -> decimal_values t = None.
Proof.
  induction t as [|c0 t IH]; simpl; [tauto|].
  intros [->|Hin] Hc.
  - now rewrite Hc.
  - destruct (decimal_value c0); [|reflexivity]. now rewrite IH.
Qed.

(** A digit string holding a digit that is not decimal makes [int]
    raise, and so the conversion. *)
Lemma convert_invoice_raises v c :
  isna v = false ->
  isdigit (strip (py_str v)) = true ->
  In c (strip (py_str v)) -> decimal_value c = None ->
  convert_invoice v = Raise (ValueError (Str (strip (py_str v)))).
Proof.
  intros Hna Hd Hin Hc. unfold convert_invoice, py_int. rewrite Hna, Hd.
  rewrite (decimal_values_None _ c Hin Hc).
  destruct (_ <? _)%nat; reflexivity.
Qed.

(** The examples of the specification, and the edge cases it lists. *)
Example convert_invoice_samples :
  convert_invoice (Str (lit "00048071")) = Ok (lit "48071") /\
  convert_invoice (Str (lit "  00048071 ")) = Ok (lit "48071") /\
  convert_invoice (Str (lit "000")) = Ok (lit "0") /\
  convert_invoice (Str (lit "INV-204")) = Ok (lit "INV-204") /\
  convert_invoice (Str (lit "123.45")) = Ok (lit "123.45") /\
  convert_invoice (Str (lit "-5")) = Ok (lit "-5") /\
  convert_invoice (Int 48071) = Ok (lit "48071") /\
  convert_invoice (Int (-5)) = Ok (lit "-5") /\
  convert_invoice (Float (S754_finite false 6606827932352512 (-37)))
    = Ok (lit "48071.0") /\
  convert_invoice NaN = Ok [].
Proof. vm_compute. repeat split. Qed.

(** C2, on the invoice number made of the one character SUPERSCRIPT TWO
    (U+00B2): [isdigit] accepts it, it has no decimal value, and the
    conversion raises [ValueError] instead of passing the text through. *)
Theorem convert_invoice_superscript :
  strip (py_str (Str [0xB2])) = [0xB2] /\
  isdigit [0xB2] = true /\
  decimal_value 0xB2 = None /\
  convert_invoice (Str [0xB2]) = Raise (ValueError (Str [0xB2])).
Proof. vm_compute. repeat split. Qed.

(** C3, on a well-formed record with that invoice number: all its
    required fields are present, its transformation raises, and so does
    the run over a sheet that holds it. *)
Theorem transform_superscript_raises :
  has_required superscript_row /\
  In superscript_row (survivors superscript_sheet) /\
  transform superscript_row = Raise (ValueError (Str [0xB2])) /\
  process_excel _ read_sample (Ok superscript_sheet)
  = Raise (ValueError (Str [0xB2])).
Proof.
  split; [vm_compute; repeat split|].
  split; [left; reflexivity|].
  split; vm_compute; reflexivity.
Qed.

(* ================================================================== *)
(** ** Document balance *)

Lemma is_ascii_digit_ascii x : x < 10 -> is_ascii_digit (ascii_digit x) = true.
Proof.
  intros H. unfold is_ascii_digit, ascii_digit.
  apply andb_true_iff. split; apply N.leb_le; lia.
Qed.

Lemma chars_of_uint_digits d : forallb is_ascii_digit (chars_of_uint d) = true.
Proof.
  unfold chars_of_uint. apply forallb_forall. intros c Hc.
  apply in_map_iff in Hc as (x & <- & Hx).
  apply is_ascii_digit_ascii.
  pose proof (digits_of_uint_lt d) as H. rewrite Forall_forall in H. auto.
Qed.

Lemma str_of_N_digits n : forallb is_ascii_digit (str_of_N n) = true.
Proof. apply chars_of_uint_digits. Qed.

Lemma str_of_N_nonempty n : str_of_N n <> [].
Proof.
  unfold str_of_N. destruct n as [|p]; [discriminate|].
  cbn [N.to_uint]. pose proof (DecimalPos.Unsigned.to_uint_nonnil p) as H.
  destruct (Pos.to_uint p); [congruence | discriminate ..].
Qed.

Lemma fixed2_head q :
  exists c w, PyFloat.fixed2 q = c :: w /\ is_ascii_digit c = true.
Proof.
  unfold PyFloat.fixed2.
  pose proof (str_of_N_digits (q / 100)) as Hd.
  pose proof (str_of_N_nonempty (q / 100)) as Hne.
  destruct (str_of_N (q / 100)) as [|c w]; [congruence|].
  cbn [forallb] in Hd. apply andb_true_iff in Hd as [Hc _].
  exists c, (w ++ [0x2E; ascii_digit ((q / 10) mod 10);
                   ascii_digit (q mod 10)]). auto.
Qed.

Lemma is_unsigned_fixed2_fixed2 q : is_unsigned_fixed2 (PyFloat.fixed2 q) = true.
Proof.
  unfold is_unsigned_fixed2, PyFloat.fixed2.
  rewrite rev_app_distr. cbn [rev app].
  rewrite !is_ascii_digit_ascii by (apply N.mod_lt; lia).
  rewrite N.eqb_refl. cbn [andb].
  pose proof (str_of_N_digits (q / 100)) as Hd.
  pose proof (str_of_N_nonempty (q / 100)) as Hne.
  destruct (rev (str_of_N (q / 100))) as [|c w] eqn:Er.
  - apply (f_equal (@rev N)) in Er. rewrite rev_involutive in Er.
    contradiction.
  - cbn [negb andb]. rewrite <- Er. rewrite forallb_forall in *.
    intros x Hx. apply Hd. now apply in_rev.
Qed.

(** The text of [q] hundredths, signed or not, has the shape
    [-]digits.dd. *)
Lemma is_fixed2_fixed2 s q :
  is_fixed2 (PyFloat.sign_prefix s ++ PyFloat.fixed2 q) = true.
Proof.
  destruct s; cbn [PyFloat.sign_prefix app is_fixed2].
  - rewrite N.eqb_refl. apply is_unsigned_fixed2_fixed2.
  - destruct (fixed2_head q) as (c & w & E & Hc).
    pose proof (is_unsigned_fixed2_fixed2 q) as H. rewrite E in *.
    cbn [is_fixed2]. replace (c =? 0x2D) with false; [exact H|].
    symmetry. apply N.eqb_neq. unfold is_ascii_digit in Hc.
    apply andb_true_iff in Hc as [Hc _]. apply N.leb_le in Hc. lia.
Qed.

Lemma round_half_even_shift_near n k :
  let q := PyFloat.round_half_even_shift n k in
  2 * n <= 2 * q * 2 ^ k + 2 ^ k /\ 2 * q * 2 ^ k <= 2 * n + 2 ^ k.
Proof.
  unfold PyFloat.round_half_even_shift. cbv zeta.
  assert (Hd : 2 ^ k <> 0) by (apply N.pow_nonzero; lia).
  pose proof (N.div_mod n (2 ^ k) Hd) as E.
  pose proof (N.mod_lt n (2 ^ k) Hd) as Hr.
  set (d := 2 ^ k) in *. set (q0 := n / d) in *. set (r := n mod d) in *.
  clearbody d q0 r. subst n.
  destruct (2 * r ?= d) eqn:C.
  - apply N.compare_eq in C. destruct (N.even q0); split; lia.
  - change (2 * r < d) in C. split; lia.
  - apply N.compare_gt_iff in C. split; lia.
Qed.

Lemma hundredths_exact m e :
  (0 <= e)%Z ->
  Z.of_N (PyFloat.hundredths m e) = (100 * Z.pos m * 2 ^ e)%Z.
Proof.
  intros He. unfold PyFloat.hundredths.
  assert (E : Z.of_N (100 * N.pos m * 2 ^ Z.to_N e)
              = (100 * Z.pos m * 2 ^ e)%Z).
  { rewrite !N2Z.inj_mul, N2Z.inj_pow, Z2N.id by exact He. reflexivity. }
  destruct e; (exact E || lia).
Qed.

Lemma hundredths_nearest m e :
  nearest_hundredths (Binary m e) (PyFloat.hundredths m e).
Proof.
  unfold nearest_hundredths. cbv zeta.
  destruct (Z.neg_nonneg_cases e) as [He|He].
  - replace (Z.max 0 (- e))%Z with (- e)%Z by lia.
    replace (e + - e)%Z with 0%Z by lia.
    rewrite Z.pow_0_r, Z.mul_1_r.
    destruct e as [|p|p]; try lia. unfold PyFloat.hundredths.
    destruct (round_half_even_shift_near (100 * N.pos m) (N.pos p)) as [H1 H2].
    set (q := PyFloat.round_half_even_shift (100 * N.pos m) (N.pos p)) in *.
    apply N2Z.inj_le in H1, H2.
    rewrite !N2Z.inj_add, !N2Z.inj_mul, !N2Z.inj_pow in H1, H2.
    change (- Z.neg p)%Z with (Z.of_N (N.pos p)).
    change (Z.of_N 2) with 2%Z in *. change (Z.of_N 100) with 100%Z in *.
    change (Z.of_N (N.pos m)) with (Z.pos m) in *.
    set (d := (2 ^ Z.of_N (N.pos p))%Z) in *. clearbody d. lia.
  - replace (Z.max 0 (- e))%Z with 0%Z by lia.
    rewrite Z.add_0_r, Z.pow_0_r, Z.mul_1_r, hundredths_exact by exact He.
    rewrite Z.sub_diag. cbn. lia.
Qed.

Lemma format_2f_finite v s a t :
  finite_amount v = Some (s, a) ->
  format_2f v = Ok t ->
  exists q,
    nearest_hundredths a q /\ t = PyFloat.sign_prefix s ++ PyFloat.fixed2 q.
Proof.
  unfold finite_amount, as_float, format_2f.
  assert (G : forall x,
             match x with
             | S754_zero s0 => Some (s0, Zero)
             | S754_finite s0 m e => Some (s0, Binary m e)
             | _ => None
             end = Some (s, a) ->
             exists q, nearest_hundredths a q /\
                       PyFloat.format_2f x
                       = PyFloat.sign_prefix s ++ PyFloat.fixed2 q).
  { intros [s0|s0| |s0 m e]; try discriminate; intros [= <- <-].
    - exists 0. split; reflexivity.
    - exists (PyFloat.hundredths m e). split; [apply hundredths_nearest|].
      reflexivity. }
  destruct v as [x|z| | | |]; try discriminate.
  - intros Hx [= <-]. apply G, Hx.
  - intros Hz Ht. destruct (G _ Hz) as (q & Hq & E). exists q.
    split; [assumption|]. rewrite <- E.
    destruct (PyFloat.float_of_int z); congruence.
Qed.

(** C6, amended. For every surviving record whose amount due is a finite
    number, the document balance is the amount to the nearest hundredth
    written as [-]digits.dd: a minus sign exactly when the amount has
    one, then the whole part, a full stop and two digits. *)
Theorem document_balance_rule (file : Type)
    (read_excel : file -> result DataFrame) (f : file) (out : DataFrame) :
  process_excel file read_excel f = Ok out ->
  exists df,
    read_excel f = Ok df /\
    Forall2
      (fun raw o =>
         forall s a,
           finite_amount (raw AMOUNT_DUE) = Some (s, a) ->
           exists q,
             nearest_hundredths a q /\
             documentBalance (record_of o)
             = Str (PyFloat.sign_prefix s ++ PyFloat.fixed2 q) /\
             is_fixed2 (PyFloat.sign_prefix s ++ PyFloat.fixed2 q) = true)
      (survivors df) (rows out).
Proof.
  intros H. apply process_excel_records in H as (df & Hread & _ & _ & _ & HF).
  exists df. split; [assumption|].
  eapply Forall2_impl; [|exact HF]. intros raw o Ht s a Ha.
  apply transform_fields in Ht as (_ & _ & _ & _ & _ & _ & Hb & ->).
  destruct (format_2f_finite _ s a _ Ha Hb) as (q & Hq & ->).
  exists q. split; [assumption|]. split; [reflexivity|].
  apply is_fixed2_fixed2.
Qed.

Lemma document_balance_rule_witness :
  process_excel _ read_sample (Ok sample_sheet) = Ok sample_output /\
  exists df,
    read_sample (Ok sample_sheet) = Ok df /\
    Forall2
      (fun raw o =>
         forall s a,
           finite_amount (raw AMOUNT_DUE) = Some (s, a) ->
           exists q,
             nearest_hundredths a q /\
             documentBalance (record_of o)
             = Str (PyFloat.sign_prefix s ++ PyFloat.fixed2 q) /\
             is_fixed2 (PyFloat.sign_prefix s ++ PyFloat.fixed2 q) = true)
      (survivors df) (rows sample_output).
Proof.
  split; [vm_compute; reflexivity|].
  apply (document_balance_rule _ read_sample (Ok sample_sheet) sample_output).
  vm_compute; reflexivity.
Defined.

(** C6 as stated fails: the run over the sheet with a blank amount due
    returns, and the document balance of its record is [nan]. *)
Lemma document_balance_not_always_fixed2 :
  ~ (forall (file : Type) (read_excel : file -> result DataFrame)
            (f : file) (out : DataFrame),
        process_excel file read_excel f = Ok out ->
        Forall (fun o => exists s,
                    documentBalance (record_of o) = Str s /\
                    is_fixed2 s = true)
               (rows out)).
Proof.
  intros H.
  specialize (H _ read_sample (Ok blank_amount_sheet) blank_amount_output).
  assert (E : process_excel _ read_sample (Ok blank_amount_sheet)
              = Ok blank_amount_output) by (vm_compute; reflexivity).
  apply H in E. apply Forall_map with (f := record_of) (P := fun r =>
    exists s, documentBalance r = Str s /\ is_fixed2 s = true) in E.
  assert (R : map record_of (rows blank_amount_output)
              = [ {| debtorReference := Str (lit "C7");
                     transactionType := Str (lit "INV");
                     documentNumber := Str (lit "INV-10");
                     documentDate := Str (lit "2024-01-07");
                     documentBalance := Str (lit "nan") |} ])
    by (vm_compute; reflexivity).
  rewrite R in E. inversion E as [|r l (s & Hs & Hf) _]; subst.
  cbn [documentBalance] in Hs. injection Hs as <-. vm_compute in Hf.
  discriminate.
Qed.

(** The balances of the specification: 174.9, -0.005, -174.95 and 0. *)
Example format_2f_samples :
  format_2f (Float (S754_finite false 6153746678336717 (-45)))
    = Ok (lit "174.90") /\
  format_2f (Float (S754_finite true 5764607523034235 (-60)))
    = Ok (lit "-0.01") /\
  format_2f (Float (S754_finite true 6155505896941158 (-45)))
    = Ok (lit "-174.95") /\
  format_2f (Float (S754_zero false)) = Ok (lit "0.00") /\
  format_2f (Int 5) = Ok (lit "5.00").
Proof. vm_compute. repeat split. Qed.

(* ================================================================== *)
(** ** Document date *)

(** A property checked on every number below a bound. *)
Lemma forall_below (P : N -> bool) (b : N) :
  forallb P (map N.of_nat (seq 0 (N.to_nat b))) = true ->
  forall n, n < b -> P n = true.
Proof.
  intros H n Hn. rewrite forallb_forall in H. apply H.
  apply in_map_iff. exists (N.to_nat n). split; [apply N2Nat.id|].
  apply in_seq. lia.
Qed.

Lemma year_digits y :
  1000 <= y < 10000 ->
  str_of_N y
  = [ ascii_digit (y / 1000); ascii_digit ((y / 100) mod 10);
      ascii_digit ((y / 10) mod 10); ascii_digit (y mod 10) ].
Proof.
  intros [Hlo Hhi].
  pose proof (forall_below
    (fun y => (y <? 1000) ||
              PyStr.eqb (str_of_N y)
                [ ascii_digit (y / 1000); ascii_digit ((y / 100) mod 10);
                  ascii_digit ((y / 10) mod 10); ascii_digit (y mod 10) ])
    10000 ltac:(vm_compute; reflexivity) y ltac:(lia)) as H.
  cbv beta in H. apply orb_true_iff in H as [H|H].
  - apply N.ltb_lt in H. lia.
  - now apply eqb_eq.
Qed.

Lemma two_digits n :
  n < 100 ->
  zfill 2 (str_of_N n) = [ ascii_digit (n / 10); ascii_digit (n mod 10) ].
Proof.
  intros Hn.
  pose proof (forall_below
    (fun n => PyStr.eqb (zfill 2 (str_of_N n))
                [ ascii_digit (n / 10); ascii_digit (n mod 10) ])
    100 ltac:(vm_compute; reflexivity) n ltac:(lia)) as H.
  now apply eqb_eq.
Qed.

Lemma strftime_ymd_iso t :
  valid_date t -> strftime_ymd t = iso_date (year t) (month t) (day t).
Proof.
  intros (Hy & Hm & Hd). unfold strftime_ymd, iso_date.
  rewrite year_digits, !two_digits by lia. reflexivity.
Qed.

Lemma convert_date_blank v : isna v = true -> convert_date v = [].
Proof. unfold convert_date. now intros ->. Qed.

(** The document date of a surviving record, by the kind of its date
    cell: a [Timestamp] gives the calendar form, a text gives itself,
    and a [datetime.datetime] gives its date followed by its time of
    day. *)
Lemma document_date_by_kind (file : Type)
    (read_excel : file -> result DataFrame) (f : file) (out : DataFrame) :
  process_excel file read_excel f = Ok out ->
  exists df,
    read_excel f = Ok df /\
    Forall2
      (fun raw o =>
         (forall t,
             raw DATE = Timestamp t -> valid_date t ->
             documentDate (record_of o)
             = Str (iso_date (year t) (month t) (day t))) /\
         (forall s, raw DATE = Str s -> documentDate (record_of o) = Str s) /\
         (forall d,
             raw DATE = Datetime d ->
             documentDate (record_of o) = Str (datetime_str d)))
      (survivors df) (rows out).
Proof.
  intros H.
  apply process_excel_records in H as (df & Hread & _ & _ & _ & HF).
  exists df. split; [assumption|].
  eapply Forall2_impl; [|exact HF]. intros raw o Ht.
  apply transform_fields in Ht as (_ & _ & _ & _ & _ & -> & _).
  split; [|split].
  - intros t E Hv. rewrite E. cbn. now rewrite strftime_ymd_iso.
  - intros s E. now rewrite E.
  - intros d E. now rewrite E.
Qed.

(** C7, on a Date column that holds dates and text.  The date cell of
    such a column is a [datetime.datetime], which is not a [Timestamp]:
    the conversion takes the branch of the text, and the document date
    comes with the time of day, [2024-01-05 00:00:00], where the same
    date in a column of dates gives [2024-01-05]. *)
Theorem convert_date_keeps_time_of_day :
  dated_row DATE
  = Datetime {| dt_year := 2024; dt_month := 1; dt_day := 5;
                dt_hour := 0; dt_minute := 0; dt_second := 0;
                dt_microsecond := 0 |} /\
  isna (dated_row DATE) = false /\
  convert_date (dated_row DATE) = lit "2024-01-05 00:00:00" /\
  convert_date (acme_row DATE) = lit "2024-01-05" /\
  run_records read_sample (Ok mixed_date_sheet)
  = Ok [ {| debtorReference := Str (lit "Acme Co");
            transactionType := Str (lit "INV");
            documentNumber := Str (lit "48071");
            documentDate := Str (lit "2024-01-05 00:00:00");
            documentBalance := Str (lit "174.95") |};
         {| debtorReference := Str (lit "C99");
            transactionType := Str (lit "CRD");
            documentNumber := Str (lit "INV-9");
            documentDate := Str (lit "TBA");
            documentBalance := Str (lit "-5.00") |} ].
Proof. vm_compute. repeat split. Qed.

(** A date, a text and a blank. *)
Example convert_date_samples :
  convert_date (midnight 2024 1 5) = lit "2024-01-05" /\
  convert_date (Str (lit "05/01/2024")) = lit "05/01/2024" /\
  convert_date (Float (S754_finite false 6331262830641152 (-37)))
  = lit "46066.0" /\
  convert_date NaT = [] /\
  convert_date NaN = [].
Proof. vm_compute. repeat split. Qed.

(* ================================================================== *)
(** ** Failure *)

Lemma derive_missing_amount df :
  forallb (has_column df) REQUIRED = true ->
  has_column df AMOUNT_DUE = false ->
  derive df = Raise (KeyError [AMOUNT_DUE]).
Proof.
  intros Hreq Ha. unfold derive, apply_rows.
  rewrite (mapM_pure _ debtor_of) by (intros; now apply debtor_reference_pure).
  cbn [bind]. unfold getitem at 1. rewrite has_column_setitem, Ha.
  label_eqb. reflexivity.
Qed.

Lemma dropna_missing subset df :
  forallb (has_column df) subset = false ->
  exists missing,
    dropna subset df = Raise (KeyError missing) /\ missing <> [] /\
    forall n, In n missing -> In n subset /\ has_column df n = false.
Proof.
  intros H. unfold dropna.
  destruct (filter (fun n => negb (has_column df n)) subset) as [|m ms] eqn:E.
  - exfalso. assert (forallb (has_column df) subset = true); [|congruence].
    apply forallb_forall. intros n Hn.
    destruct (has_column df n) eqn:Hc; [reflexivity|].
    assert (In n []) as [].
    rewrite <- E. apply filter_In. now rewrite Hc.
  - exists (m :: ms). split; [reflexivity|]. split; [discriminate|].
    intros n Hn. rewrite <- E in Hn. apply filter_In in Hn as [Hn Hc].
    split; [assumption|]. now destruct (has_column df n).
Qed.

Section Failure.

Variable file : Type.
Variable read_excel : file -> result DataFrame.

(** A sheet without one of the consumed columns makes the run raise a
    [KeyError] that names missing columns. *)
Lemma process_excel_missing_column f df :
  read_excel f = Ok df ->
  forallb (has_column df) CONSUMED = false ->
  exists missing,
    process_excel file read_excel f = Raise (KeyError missing) /\
    missing <> [] /\
    forall n, In n missing -> In n CONSUMED /\ has_column df n = false.
Proof.
  intros Hread Hc. rewrite process_excel_derive, Hread. cbn [bind].
  destruct (forallb (has_column df) REQUIRED) eqn:Hreq.
  - assert (Ha : has_column df AMOUNT_DUE = false).
    { unfold CONSUMED in Hc. cbn [forallb] in Hc. rewrite Hreq in Hc.
      now destruct (has_column df AMOUNT_DUE). }
    destruct (dropna REQUIRED df) as [df'|e] eqn:Hd.
    + apply dropna_Ok in Hd as [_ ->]. cbn [bind].
      rewrite derive_missing_amount by assumption.
      exists [AMOUNT_DUE]. split; [reflexivity|]. split; [discriminate|].
      intros n [<-|[]]. split; [now left | assumption].
    + apply dropna_Raise in Hd as (n & Hn & Hcn).
      rewrite forallb_forall in Hreq. rewrite (Hreq n Hn) in Hcn. discriminate.
  - destruct (dropna_missing REQUIRED df Hreq) as (missing & -> & Hne & Hm).
    exists missing. split; [reflexivity|]. split; [assumption|].
    intros n Hn. destruct (Hm n Hn). split; [now right | assumption].
Qed.

Lemma has_column_In df n : has_column df n = true <-> In n (columns df).
Proof.
  unfold has_column. rewrite existsb_exists. split.
  - intros (x & Hx & E). apply eqb_eq in E. now subst.
  - intros H. exists n. split; [assumption | apply eqb_refl].
Qed.

Lemma has_column_absent df n : has_column df n = false <-> ~ In n (columns df).
Proof.
  rewrite <- has_column_In. destruct (has_column df n); split; congruence.
Qed.

(** C8, amended.  When the file cannot be read, the run raises the error
    of the reader; when the sheet read from it lacks one of the five
    columns the conversion reads, the run raises a [KeyError] that names
    missing columns; and whenever the run raises, for whatever reason,
    the page shows that one error after the upload widget, with no
    preview and nothing to download. *)
Theorem failure_shows_error_only (f : file) :
  (forall e, read_excel f = Raise e ->
             process_excel file read_excel f = Raise e) /\
  (forall df n,
      read_excel f = Ok df -> In n CONSUMED -> ~ In n (columns df) ->
      exists missing,
        process_excel file read_excel f = Raise (KeyError missing) /\
        missing <> [] /\
        forall m, In m missing -> In m CONSUMED /\ ~ In m (columns df)) /\
  (forall e,
      process_excel file read_excel f = Raise e ->
      main file read_excel (Some f)
      = [StTitle; StWrite; StFileUploader; StError e] /\
      offers_download (main file read_excel (Some f)) = false).
Proof.
  split; [|split].
  - intros e H. now rewrite process_excel_derive, H.
  - intros df n Hread Hn Habs.
    assert (Hc : forallb (has_column df) CONSUMED = false).
    { destruct (forallb (has_column df) CONSUMED) eqn:E; [|reflexivity].
      rewrite forallb_forall in E. apply has_column_absent in Habs.
      rewrite (E n Hn) in Habs. discriminate. }
    destruct (process_excel_missing_column f df Hread Hc)
      as (missing & Hrun & Hne & Hm).
    exists missing. split; [exact Hrun|]. split; [exact Hne|].
    intros m Hin. destruct (Hm m Hin) as [H1 H2]. split; [exact H1|].
    now apply has_column_absent.
  - intros e H. unfold main. rewrite H. split; reflexivity.
Qed.

(** The download is offered only for a run that returned, and it is the
    whole result of that run. *)
Lemma download_is_complete uploaded data :
  In (StDownloadButton data) (main file read_excel uploaded) ->
  exists f, uploaded = Some f /\ process_excel file read_excel f = Ok data.
Proof.
  unfold main.
  destruct uploaded as [f|];
    [destruct (process_excel file read_excel f) as [out|e] eqn:E|];
    cbn; intros H;
    repeat (destruct H as [H|H]; try discriminate H); try contradiction.
  injection H as <-. now exists f.
Qed.

End Failure.

Lemma failure_shows_error_only_witness :
  (read_sample (Raise (ReadError (lit "File is not a zip file")))
   = Raise (ReadError (lit "File is not a zip file")) /\
   process_excel _ read_sample (Raise (ReadError (lit "File is not a zip file")))
   = Raise (ReadError (lit "File is not a zip file"))) /\
  (read_sample (Ok retitled_sheet) = Ok retitled_sheet /\
   In CARD_ID CONSUMED /\ ~ In CARD_ID (columns retitled_sheet) /\
   process_excel _ read_sample (Ok retitled_sheet)
   = Raise (KeyError [DATE; INVOICE_NO; CUSTOMER_NAME; CARD_ID]) /\
   exists missing,
     process_excel _ read_sample (Ok retitled_sheet)
     = Raise (KeyError missing) /\
     missing <> [] /\
     forall m, In m missing ->
               In m CONSUMED /\ ~ In m (columns retitled_sheet)) /\
  (read_sample (Ok no_amount_sheet) = Ok no_amount_sheet /\
   In AMOUNT_DUE CONSUMED /\ ~ In AMOUNT_DUE (columns no_amount_sheet) /\
   process_excel _ read_sample (Ok no_amount_sheet)
   = Raise (KeyError [AMOUNT_DUE]) /\
   exists missing,
     process_excel _ read_sample (Ok no_amount_sheet)
     = Raise (KeyError missing) /\
     missing <> [] /\
     forall m, In m missing ->
               In m CONSUMED /\ ~ In m (columns no_amount_sheet)) /\
  (process_excel _ read_sample (Ok pending_sheet)
   = Raise (TypeError (Str (lit "pending"))) /\
   main _ read_sample (Some (Ok pending_sheet))
   = [StTitle; StWrite; StFileUploader;
      StError (TypeError (Str (lit "pending")))] /\
   offers_download (main _ read_sample (Some (Ok pending_sheet))) = false).
Proof.
  assert (Hc : In CARD_ID CONSUMED) by (vm_compute; tauto).
  assert (Hh : ~ In CARD_ID (columns retitled_sheet))
    by (intros H; vm_compute in H; intuition discriminate).
  assert (Ha : In AMOUNT_DUE CONSUMED) by (vm_compute; tauto).
  assert (Hn : ~ In AMOUNT_DUE (columns no_amount_sheet))
    by (intros H; vm_compute in H; intuition discriminate).
  assert (Hp : process_excel _ read_sample (Ok pending_sheet)
               = Raise (TypeError (Str (lit "pending"))))
    by (vm_compute; reflexivity).
  split; [|split; [|split]].
  - refine (conj eq_refl _).
    exact (proj1 (failure_shows_error_only _ read_sample
                    (Raise (ReadError (lit "File is not a zip file"))))
                 _ eq_refl).
  - refine (conj eq_refl (conj Hc (conj Hh (conj _ _)))).
    + vm_compute. reflexivity.
    + exact (proj1 (proj2 (failure_shows_error_only _ read_sample
                             (Ok retitled_sheet)))
                   retitled_sheet CARD_ID eq_refl Hc Hh).
  - refine (conj eq_refl (conj Ha (conj Hn (conj _ _)))).
    + vm_compute. reflexivity.
    + exact (proj1 (proj2 (failure_shows_error_only _ read_sample
                             (Ok no_amount_sheet)))
                   no_amount_sheet AMOUNT_DUE eq_refl Ha Hn).
  - refine (conj Hp _).
    exact (proj2 (proj2 (failure_shows_error_only _ read_sample
                           (Ok pending_sheet)))
                 _ Hp).
Defined.

(** C8 as stated fails for the column Amount: it is among the columns
    the sheet is expected to have, the sheet whose column E is titled
    Net does not have it, and yet the run returns the records of the
    sample and the page offers them for download. *)
Lemma absent_amount_column_converts :
  (In (lit "Amount") EXPECTED /\ ~ In (lit "Amount") (columns net_sheet) /\
   run_records read_sample (Ok net_sheet) = Ok [acme_record; beta_record] /\
   offers_download (main _ read_sample (Some (Ok net_sheet))) = true) /\
  ~ (forall (file : Type) (read_excel : file -> result DataFrame)
            (f : file) (df : DataFrame) (n : label),
        read_excel f = Ok df -> In n EXPECTED -> ~ In n (columns df) ->
        exists e, process_excel file read_excel f = Raise e).
Proof.
  assert (Hin : In (lit "Amount") EXPECTED) by (vm_compute; tauto).
  assert (Habs : ~ In (lit "Amount") (columns net_sheet))
    by (intros H; vm_compute in H; intuition discriminate).
  assert (Hrun : run_records read_sample (Ok net_sheet)
                 = Ok [acme_record; beta_record]) by (vm_compute; reflexivity).
  split.
  - refine (conj Hin (conj Habs (conj Hrun _))). vm_compute. reflexivity.
  - intros H.
    destruct (H _ read_sample (Ok net_sheet) net_sheet (lit "Amount")
                eq_refl Hin Habs) as [e He].
    unfold run_records in Hrun. rewrite He in Hrun. discriminate Hrun.
Qed.

(* ================================================================== *)
(** ** The run as an equation *)

Lemma bind_mapM_the {A B C} (d : B) (h : A -> result B) l
    (k : list B -> result C) :
  (vals <- mapM h l ;; k vals)
  = (_ <- mapM h l ;; k (map (fun a => the d (h a)) l)).
Proof.
  destruct (mapM h l) as [vals|e] eqn:E; [|reflexivity].
  apply (mapM_Ok_inv d) in E as [-> _]. reflexivity.
Qed.

(** One derived column, as an equation: the cells of [name] are
    converted row after row, and the rest sees the converted texts. *)
Lemma stage_eq {C} df name (f : cell -> result pystr) (g : Row -> Row) l
    (rest : list pystr -> result C) :
  rows df = map g l ->
  has_column df name = true ->
  (col <- getitem df name ;; vals <- series_apply col f ;; rest vals)
  = (_ <- mapM (fun r => f (g r name)) l ;;
     rest (map (fun r => the [] (f (g r name))) l)).
Proof.
  intros E Hc. unfold getitem, series_apply. rewrite Hc, E, map_map.
  cbn [bind]. rewrite mapM_map. cbv beta.
  apply (bind_mapM_the (B:=pystr) [] (fun r => f (g r name)) l rest).
Qed.

Lemma mapM_Ok_unit {A B} (h : A -> result B) (g : A -> B) l :
  (forall a, h a = Ok (g a)) -> mapM h l = Ok (map g l).
Proof. intros H. apply mapM_pure. auto. Qed.

(** After [dropna], with the amount column there, the run is the three
    conversions column after column, then the final rows. *)
Lemma derive_eq df :
  forallb (has_column df) REQUIRED = true ->
  has_column df AMOUNT_DUE = true ->
  derive df
  = (_ <- conversions (rows df) ;;
     Ok {| columns := FINAL; rows := map out_row (rows df) |}).
Proof.
  intros Hreq Ha. pose proof (required_columns df Hreq) as (Hd & Hi & Hn & Hc).
  unfold derive, apply_rows, conversions.
  rewrite (mapM_pure _ debtor_of) by (intros; now apply debtor_reference_pure).
  cbn [bind].
  set (df1 := setitem df DEBTOR_REFERENCE _).
  set (g1 := fun r : Row => update r DEBTOR_REFERENCE (debtor_of r)).
  assert (R1 : rows df1 = map g1 (rows df)).
  { subst df1. apply (rows_setitem_map df _ (fun r => r)). now rewrite map_id. }
  assert (C1 : forall n, has_column df1 n
                         = has_column df n || PyStr.eqb n DEBTOR_REFERENCE).
  { intros n. subst df1. apply has_column_setitem. }
  clearbody df1.
  rewrite (stage_eq df1 AMOUNT_DUE _ _ _ _ R1) by (rewrite C1, Ha; reflexivity).
  rewrite map_map. subst g1. read_through.
  destruct (mapM (fun r : Row => transaction_type (r AMOUNT_DUE)) (rows df))
    as [ttype|e]; [cbn [bind] | reflexivity].
  set (df2 := setitem df1 TRANSACTION_TYPE _).
  set (g2 := fun r : Row =>
               update (update r DEBTOR_REFERENCE (debtor_of r))
                 TRANSACTION_TYPE
                 (Str (the [] (transaction_type (r AMOUNT_DUE))))).
  assert (R2 : rows df2 = map g2 (rows df)).
  { subst df2. apply (rows_setitem_map df1 _ _ _ _ R1). }
  assert (C2 : forall n, has_column df2 n
                         = has_column df1 n || PyStr.eqb n TRANSACTION_TYPE).
  { intros n. subst df2. apply has_column_setitem. }
  clearbody df2.
  rewrite (stage_eq df2 INVOICE_NO _ _ _ _ R2)
    by (rewrite C2, C1, Hi; reflexivity).
  rewrite map_map. subst g2. read_through.
  destruct (mapM (fun r : Row => convert_invoice (r INVOICE_NO)) (rows df))
    as [number|e]; [cbn [bind] | reflexivity].
  set (df3 := setitem df2 DOCUMENT_NUMBER _).
  set (g3 := fun r : Row =>
               update
                 (update (update r DEBTOR_REFERENCE (debtor_of r))
                    TRANSACTION_TYPE
                    (Str (the [] (transaction_type (r AMOUNT_DUE)))))
                 DOCUMENT_NUMBER
                 (Str (the [] (convert_invoice (r INVOICE_NO))))).
  assert (R3 : rows df3 = map g3 (rows df)).
  { subst df3. apply (rows_setitem_map df2 _ _ _ _ R2). }
  assert (C3 : forall n, has_column df3 n
                         = has_column df2 n || PyStr.eqb n DOCUMENT_NUMBER).
  { intros n. subst df3. apply has_column_setitem. }
  clearbody df3.
  rewrite (stage_eq df3 DATE _ _ _ _ R3)
    by (rewrite C3, C2, C1, Hd; reflexivity).
  rewrite map_map. subst g3. read_through. cbn [the].
  rewrite (mapM_Ok_unit _ (fun r : Row => convert_date (r DATE)))
    by reflexivity.
  cbn [bind].
  set (df4 := setitem df3 DOCUMENT_DATE _).
  set (g4 := fun r : Row =>
               update
                 (update
                    (update (update r DEBTOR_REFERENCE (debtor_of r))
                       TRANSACTION_TYPE
                       (Str (the [] (transaction_type (r AMOUNT_DUE)))))
                    DOCUMENT_NUMBER
                    (Str (the [] (convert_invoice (r INVOICE_NO)))))
                 DOCUMENT_DATE (Str (convert_date (r DATE)))).
  assert (R4 : rows df4 = map g4 (rows df)).
  { subst df4. apply (rows_setitem_map df3 _ _ _ _ R3). }
  assert (C4 : forall n, has_column df4 n
                         = has_column df3 n || PyStr.eqb n DOCUMENT_DATE).
  { intros n. subst df4. apply has_column_setitem. }
  clearbody df4.
  rewrite (stage_eq df4 AMOUNT_DUE _ _ _ _ R4)
    by (rewrite C4, C3, C2, C1, Ha; reflexivity).
  rewrite map_map. subst g4. read_through.
  destruct (mapM (fun r : Row => format_2f (r AMOUNT_DUE)) (rows df))
    as [balance|e]; [cbn [bind] | reflexivity].
  set (df5 := setitem df4 DOCUMENT_BALANCE _).
  assert (R5 : rows df5 = map out_row (rows df)).
  { subst df5. apply (rows_setitem_map df4 _ _ _ _ R4). }
  assert (C5 : forall n, has_column df5 n
                         = has_column df4 n || PyStr.eqb n DOCUMENT_BALANCE).
  { intros n. subst df5. apply has_column_setitem. }
  clearbody df5.
  unfold select, FINAL. cbn [filter]. rewrite !C5, !C4, !C3, !C2, !C1.
  label_eqb. rewrite ?orb_true_r. cbn. now rewrite R5.
Qed.

Section Equation.

Variable file : Type.
Variable read_excel : file -> result DataFrame.

(** The whole run: reading, the check of the required columns, the
    check of the amount column, the conversions, the final frame. *)
Lemma process_excel_eq f :
  process_excel file read_excel f
  = (df <- read_excel f ;;
     match filter (fun n => negb (has_column df n)) REQUIRED with
     | [] =>
         if has_column df AMOUNT_DUE
         then _ <- conversions (survivors df) ;;
              Ok {| columns := FINAL; rows := map out_row (survivors df) |}
         else Raise (KeyError [AMOUNT_DUE])
     | missing => Raise (KeyError missing)
     end).
Proof.
  rewrite process_excel_derive.
  destruct (read_excel f) as [df|e]; [cbn [bind] | reflexivity].
  destruct (dropna REQUIRED df) as [kept|e] eqn:Hd.
  - pose proof Hd as Hd'. apply dropna_Ok in Hd' as [Hreq ->].
    unfold dropna in Hd.
    destruct (filter (fun n => negb (has_column df n)) REQUIRED);
      [|discriminate].
    cbn [bind]. destruct (has_column df AMOUNT_DUE) eqn:Ha.
    + rewrite derive_eq; [reflexivity | exact Hreq | exact Ha].
    + apply derive_missing_amount; assumption.
  - unfold dropna in Hd.
    destruct (filter (fun n => negb (has_column df n)) REQUIRED);
      [discriminate|].
    cbn [bind]. symmetry. exact Hd.
Qed.

End Equation.

(* ================================================================== *)
(** ** Which exception, and when none *)

Lemma mapM_first_Raise {A B} (h : A -> result B) pre a post e :
  Forall (fun x => succeeds (h x)) pre ->
  h a = Raise e ->
  mapM h (pre ++ a :: post) = Raise e.
Proof.
  intros Hpre Ha. induction Hpre as [|x pre [b Hx] _ IH]; cbn [app mapM].
  - now rewrite Ha.
  - rewrite Hx. cbn [bind]. now rewrite IH.
Qed.

Lemma mapM_all_succeed {A B} (h : A -> result B) l :
  Forall (fun x => succeeds (h x)) l -> succeeds (mapM h l).
Proof.
  induction 1 as [|x l [b Hx] _ [bs IH]]; cbn [mapM].
  - now exists [].
  - rewrite Hx, IH. now exists (b :: bs).
Qed.

Lemma mapM_succeeds_Forall {A B} (h : A -> result B) l :
  succeeds (mapM h l) -> Forall (fun x => succeeds (h x)) l.
Proof.
  intros [bs H]. revert bs H. induction l as [|a l IH]; intros bs H.
  - constructor.
  - cbn [mapM] in H. apply bind_Ok in H as (b & Hb & H).
    apply bind_Ok in H as (bs' & Hbs & _).
    constructor; [now exists b | now apply (IH bs')].
Qed.

Section Exceptions.

Variable file : Type.
Variable read_excel : file -> result DataFrame.

(** X1. When required columns are missing the run raises a [KeyError]
    that lists all of them, in the order Date, Invoice No., Customer
    Name, Card ID; a missing amount column is reported only when those
    four are there, and alone.  Neither depends on the rows. *)
Theorem missing_columns_report (f : file) (df : DataFrame) :
  read_excel f = Ok df ->
  let missing := filter (fun n => negb (has_column df n)) REQUIRED in
  (missing <> [] ->
   process_excel file read_excel f = Raise (KeyError missing)) /\
  (missing = [] -> has_column df AMOUNT_DUE = false ->
   process_excel file read_excel f = Raise (KeyError [AMOUNT_DUE])).
Proof.
  intros Hread missing. rewrite process_excel_eq, Hread. cbn [bind].
  fold missing. split.
  - intros Hne. destruct missing; [congruence | reflexivity].
  - intros -> ->. reflexivity.
Qed.

(** X2. Exceptions come in column order.  The first surviving row whose
    amount does not compare with zero decides the exception of the run,
    whatever the invoice numbers are; when all amounts compare, the
    first surviving row whose invoice number does not convert decides
    it. *)
Theorem exceptions_in_column_order (f : file) (df : DataFrame)
    (pre post : list Row) (r : Row) (e : exn) :
  read_excel f = Ok df ->
  forallb (has_column df) CONSUMED = true ->
  survivors df = pre ++ r :: post ->
  (Forall (fun x => succeeds (lt_zero (x AMOUNT_DUE))) pre ->
   lt_zero (r AMOUNT_DUE) = Raise e ->
   process_excel file read_excel f = Raise e) /\
  (Forall (fun x => succeeds (lt_zero (x AMOUNT_DUE))) (survivors df) ->
   Forall (fun x => succeeds (convert_invoice (x INVOICE_NO))) pre ->
   convert_invoice (r INVOICE_NO) = Raise e ->
   process_excel file read_excel f = Raise e).
Proof.
  intros Hread Hcols Hs. rewrite process_excel_eq, Hread. cbn [bind].
  unfold CONSUMED in Hcols. cbn [forallb] in Hcols.
  apply andb_true_iff in Hcols as [Ha Hreq].
  assert (Hm : filter (fun n => negb (has_column df n)) REQUIRED = []).
  { destruct (dropna REQUIRED df) as [k|x] eqn:Hd.
    - unfold dropna in Hd. now destruct (filter _ REQUIRED).
    - apply dropna_Raise in Hd as (n & Hn & Hc).
      rewrite forallb_forall in Hreq. rewrite (Hreq n Hn) in Hc. discriminate. }
  rewrite Hm, Ha. unfold conversions.
  assert (T : forall l, Forall (fun x : Row => succeeds (lt_zero (x AMOUNT_DUE))) l ->
              Forall (fun x : Row => succeeds (transaction_type (x AMOUNT_DUE))) l).
  { intros l. apply Forall_impl. intros x [b Hb]. unfold transaction_type.
    rewrite Hb. eexists; reflexivity. }
  split.
  - intros Hpre He. rewrite Hs.
    rewrite (mapM_first_Raise _ pre r post e); [reflexivity | now apply T |].
    unfold transaction_type. now rewrite He.
  - intros Hall Hpre He.
    destruct (mapM_all_succeed _ _ (T _ Hall)) as [ts ->]. cbn [bind].
    rewrite Hs. now rewrite (mapM_first_Raise _ pre r post e).
Qed.

End Exceptions.

Lemma missing_columns_report_witness :
  (read_sample (Ok retitled_sheet) = Ok retitled_sheet /\
   filter (fun n => negb (has_column retitled_sheet n)) REQUIRED <> [] /\
   process_excel _ read_sample (Ok retitled_sheet)
   = Raise (KeyError
              (filter (fun n => negb (has_column retitled_sheet n)) REQUIRED)))
  /\
  (read_sample (Ok no_amount_sheet) = Ok no_amount_sheet /\
   filter (fun n => negb (has_column no_amount_sheet n)) REQUIRED = [] /\
   has_column no_amount_sheet AMOUNT_DUE = false /\
   process_excel _ read_sample (Ok no_amount_sheet)
   = Raise (KeyError [AMOUNT_DUE])).
Proof.
  split.
  - assert (H : filter (fun n => negb (has_column retitled_sheet n)) REQUIRED
                <> []) by (vm_compute; discriminate).
    refine (conj eq_refl (conj H _)).
    exact (proj1 (missing_columns_report _ read_sample (Ok retitled_sheet)
                    retitled_sheet eq_refl) H).
  - assert (H : filter (fun n => negb (has_column no_amount_sheet n)) REQUIRED
                = []) by (vm_compute; reflexivity).
    assert (Ha : has_column no_amount_sheet AMOUNT_DUE = false)
      by (vm_compute; reflexivity).
    refine (conj eq_refl (conj H (conj Ha _))).
    exact (proj2 (missing_columns_report _ read_sample (Ok no_amount_sheet)
                    no_amount_sheet eq_refl) H Ha).
Defined.

Lemma exceptions_in_column_order_witness :
  (read_sample (Ok mixed_sheet) = Ok mixed_sheet /\
   forallb (has_column mixed_sheet) CONSUMED = true /\
   survivors mixed_sheet = [superscript_row] ++ text_amount_row :: [] /\
   Forall (fun x => succeeds (lt_zero (x AMOUNT_DUE))) [superscript_row] /\
   lt_zero (text_amount_row AMOUNT_DUE) = Raise (TypeError (Str (lit "pending")))
   /\
   process_excel _ read_sample (Ok mixed_sheet)
   = Raise (TypeError (Str (lit "pending")))) /\
  (read_sample (Ok superscript_sheet) = Ok superscript_sheet /\
   forallb (has_column superscript_sheet) CONSUMED = true /\
   survivors superscript_sheet = [] ++ superscript_row :: [] /\
   Forall (fun x => succeeds (lt_zero (x AMOUNT_DUE)))
          (survivors superscript_sheet) /\
   Forall (fun x => succeeds (convert_invoice (x INVOICE_NO))) [] /\
   convert_invoice (superscript_row INVOICE_NO)
   = Raise (ValueError (Str [0xB2])) /\
   process_excel _ read_sample (Ok superscript_sheet)
   = Raise (ValueError (Str [0xB2]))).
Proof.
  split.
  - assert (Hc : forallb (has_column mixed_sheet) CONSUMED = true)
      by (vm_compute; reflexivity).
    assert (Hs : survivors mixed_sheet
                 = [superscript_row] ++ text_amount_row :: [])
      by reflexivity.
    assert (Hp : Forall (fun x => succeeds (lt_zero (x AMOUNT_DUE)))
                        [superscript_row])
      by (repeat constructor; eexists; vm_compute; reflexivity).
    assert (He : lt_zero (text_amount_row AMOUNT_DUE)
                 = Raise (TypeError (Str (lit "pending"))))
      by (vm_compute; reflexivity).
    refine (conj eq_refl (conj Hc (conj Hs (conj Hp (conj He _))))).
    exact (proj1 (exceptions_in_column_order _ read_sample (Ok mixed_sheet)
                    mixed_sheet _ _ _ _ eq_refl Hc Hs) Hp He).
  - assert (Hc : forallb (has_column superscript_sheet) CONSUMED = true)
      by (vm_compute; reflexivity).
    assert (Hs : survivors superscript_sheet = [] ++ superscript_row :: [])
      by reflexivity.
    assert (Ha : Forall (fun x => succeeds (lt_zero (x AMOUNT_DUE)))
                        (survivors superscript_sheet))
      by (repeat constructor; eexists; vm_compute; reflexivity).
    assert (Hp : Forall (fun x : Row =>
                           succeeds (convert_invoice (x INVOICE_NO))) [])
      by constructor.
    assert (He : convert_invoice (superscript_row INVOICE_NO)
                 = Raise (ValueError (Str [0xB2])))
      by (vm_compute; reflexivity).
    refine (conj eq_refl (conj Hc (conj Hs (conj Ha (conj Hp (conj He _)))))).
    exact (proj2 (exceptions_in_column_order _ read_sample
                    (Ok superscript_sheet) superscript_sheet _ _ _ _
                    eq_refl Hc Hs) Ha Hp He).
Defined.


(* ================================================================== *)
(** ** When the run returns *)

Lemma decimal_value_isdecimal c :
  isdecimal_char c = true <-> exists d, decimal_value c = Some d.
Proof.
  unfold isdecimal_char, decimal_value.
  destruct (find (in_range c) decimal_ranges) as [[lo hi]|] eqn:E.
  - split; [intros _; eexists; reflexivity|]. intros _.
    apply find_some in E as [Hin Hr]. apply existsb_exists. eauto.
  - split; [|intros [d H]; discriminate]. intros H.
    apply existsb_exists in H as (x & Hin & Hr).
    now rewrite (find_none _ _ E x Hin) in Hr.
Qed.

Lemma decimal_values_Some t :
  forallb isdecimal_char t = true <-> exists ds, decimal_values t = Some ds.
Proof.
  induction t as [|c t IH]; cbn [forallb decimal_values].
  - split; [intros _; now exists [] | reflexivity].
  - rewrite andb_true_iff, IH, decimal_value_isdecimal. split.
    + intros [[d ->] [ds ->]]. eexists; reflexivity.
    + destruct (decimal_value c) as [d|]; [|intros [ds H]; discriminate].
      destruct (decimal_values t) as [ds|]; [|intros [x H]; discriminate].
      intros _. split; eexists; reflexivity.
Qed.

Lemma convert_invoice_succeeds v :
  succeeds (convert_invoice v) <-> invoice_ok v.
Proof.
  unfold convert_invoice, invoice_ok, py_int.
  destruct (isna v); [split; [discriminate | intros _; eexists; reflexivity]|].
  destruct (isdigit (strip (py_str v)));
    [|split; [discriminate | intros _; eexists; reflexivity]].
  destruct (int_max_str_digits <? _)%nat eqn:L.
  - apply Nat.ltb_lt in L. split.
    + intros [t H]. discriminate.
    + intros H. destruct (H eq_refl eq_refl) as [H1 _]. lia.
  - apply Nat.ltb_ge in L. split.
    + intros [t H]. intros _ _. split; [exact L|].
      apply decimal_values_Some.
      destruct (decimal_values (strip (py_str v))); [eauto | discriminate].
    + intros H. destruct (H eq_refl eq_refl) as [_ H2].
      apply decimal_values_Some in H2 as [ds ->]. eexists; reflexivity.
Qed.

Lemma amount_ok_succeeds v :
  succeeds (transaction_type v) /\ succeeds (format_2f v) <-> amount_ok v.
Proof.
  unfold transaction_type, amount_ok.
  destruct v as [x|z|s0|ts| |dt]; cbn [lt_zero format_2f bind].
  - split; [tauto|]. intros _. split; eexists; reflexivity.
  - destruct (PyFloat.float_of_int z); split;
      try tauto; try (intros [_ [t H]]; discriminate);
      intros _; split; eexists; reflexivity.
  - split; [intros [[t H] _]; discriminate | tauto].
  - split; [intros [[t H] _]; discriminate | tauto].
  - split; [intros [[t H] _]; discriminate | tauto].
  - split; [intros [[t H] _]; discriminate | tauto].
Qed.

Lemma transform_succeeds_data r :
  succeeds (transform r) <->
  amount_ok (r AMOUNT_DUE) /\ invoice_ok (r INVOICE_NO).
Proof.
  rewrite transform_succeeds, <- amount_ok_succeeds,
    <- convert_invoice_succeeds. tauto.
Qed.

Section Returns.

Variable file : Type.
Variable read_excel : file -> result DataFrame.

(** X3. Once the sheet is read, the run returns exactly when the five
    consumed columns are there and every surviving row has an amount
    that is a float or an [int] in float range and an invoice number
    whose digits, if it is all digits, are decimal and at most 4300. *)
Theorem run_returns_iff (f : file) (df : DataFrame) :
  read_excel f = Ok df ->
  (succeeds (process_excel file read_excel f) <->
   forallb (has_column df) CONSUMED = true /\
   Forall (fun r => amount_ok (r AMOUNT_DUE) /\ invoice_ok (r INVOICE_NO))
          (survivors df)).
Proof.
  intros Hread. split.
  - intros [out H]. apply process_excel_Ok in H as (df' & Hr & Hc & HF & _).
    assert (df' = df) as -> by congruence. split; [exact Hc|].
    eapply Forall_impl; [|exact HF]. intros r. apply transform_succeeds_data.
  - intros [Hc HF].
    exists {| columns := FINAL; rows := map out_row (survivors df) |}.
    apply process_excel_Ok. exists df. repeat split; try assumption.
    eapply Forall_impl; [|exact HF]. intros r. apply transform_succeeds_data.
Qed.

End Returns.

Lemma run_returns_iff_witness :
  read_sample (Ok sample_sheet) = Ok sample_sheet /\
  (succeeds (process_excel _ read_sample (Ok sample_sheet)) <->
   forallb (has_column sample_sheet) CONSUMED = true /\
   Forall (fun r => amount_ok (r AMOUNT_DUE) /\ invoice_ok (r INVOICE_NO))
          (survivors sample_sheet)).
Proof.
  refine (conj eq_refl _).
  exact (run_returns_iff _ read_sample (Ok sample_sheet) sample_sheet eq_refl).
Defined.

(* ================================================================== *)
(** ** What the result depends on *)

Lemma record_of_out_row_eq r :
  record_of (out_row r)
  = {| debtorReference := debtor_of r;
       transactionType := Str (the [] (transaction_type (r AMOUNT_DUE)));
       documentNumber := Str (the [] (convert_invoice (r INVOICE_NO)));
       documentDate := Str (convert_date (r DATE));
       documentBalance := Str (the [] (format_2f (r AMOUNT_DUE))) |}.
Proof.
  unfold record_of, out_row. f_equal; unfold update; label_eqb; reflexivity.
Qed.

Lemma agree_on_consumed r r' :
  agree_on CONSUMED r r' ->
  r AMOUNT_DUE = r' AMOUNT_DUE /\ r DATE = r' DATE /\
  r INVOICE_NO = r' INVOICE_NO /\ r CUSTOMER_NAME = r' CUSTOMER_NAME /\
  r CARD_ID = r' CARD_ID.
Proof.
  intros H. unfold agree_on, CONSUMED, REQUIRED in H.
  repeat split; apply H; cbn; tauto.
Qed.

Lemma Forall2_filter {A} (R : A -> A -> Prop) (p : A -> bool) l l' :
  (forall a b, R a b -> p a = p b) ->
  Forall2 R l l' -> Forall2 R (filter p l) (filter p l').
Proof.
  intros Hp. induction 1 as [|a b l l' Hab _ IH]; cbn [filter]; [constructor|].
  rewrite <- (Hp a b Hab). destruct (p a); [constructor|]; assumption.
Qed.

Lemma mapM_Forall2_ext {A B} (h : A -> result B) l l' :
  Forall2 (fun a b => h a = h b) l l' -> mapM h l = mapM h l'.
Proof.
  induction 1 as [|a b l l' Hab _ IH]; cbn [mapM]; [reflexivity|].
  now rewrite Hab, IH.
Qed.

Lemma map_Forall2_ext {A B} (h : A -> B) l l' :
  Forall2 (fun a b => h a = h b) l l' -> map h l = map h l'.
Proof.
  induction 1 as [|a b l l' Hab _ IH]; cbn [map]; [reflexivity|].
  now rewrite Hab, IH.
Qed.

(** X4. The result depends on the sheet only through the cells of the
    five consumed columns: two sheets that have the same consumed
    columns and whose rows agree on them give the same records, or the
    same exception, whatever else they hold (the column Amount, further
    columns). *)
Theorem only_consumed_cells_matter
    {file file' : Type} (read_excel : file -> result DataFrame)
    (read_excel' : file' -> result DataFrame)
    (f : file) (f' : file') (df df' : DataFrame) :
  read_excel f = Ok df ->
  read_excel' f' = Ok df' ->
  (forall n, In n CONSUMED -> has_column df n = has_column df' n) ->
  Forall2 (agree_on CONSUMED) (rows df) (rows df') ->
  run_records read_excel f = run_records read_excel' f'.
Proof.
  intros Hread Hread' Hcols Hrows. unfold run_records.
  rewrite !process_excel_eq, Hread, Hread'. cbn [bind].
  assert (Hm : filter (fun n => negb (has_column df n)) REQUIRED
               = filter (fun n => negb (has_column df' n)) REQUIRED).
  { apply filter_ext_in. intros n Hn. rewrite (Hcols n); [reflexivity|].
    now right. }
  rewrite <- Hm. rewrite <- (Hcols AMOUNT_DUE) by now left.
  destruct (filter (fun n => negb (has_column df n)) REQUIRED);
    [|reflexivity].
  destruct (has_column df AMOUNT_DUE); [|reflexivity].
  assert (Hs : Forall2 (agree_on CONSUMED) (survivors df) (survivors df')).
  { apply Forall2_filter; [|exact Hrows]. intros a b Hab.
    apply agree_on_consumed in Hab as (_ & Hd & Hi & Hn & Hc).
    unfold notna_all, REQUIRED. cbn [forallb]. now rewrite Hd, Hi, Hn, Hc. }
  assert (E : conversions (survivors df) = conversions (survivors df')).
  { unfold conversions.
    rewrite (mapM_Forall2_ext (fun r : Row => transaction_type (r AMOUNT_DUE))
               (survivors df) (survivors df')).
    rewrite (mapM_Forall2_ext (fun r : Row => convert_invoice (r INVOICE_NO))
               (survivors df) (survivors df')).
    rewrite (mapM_Forall2_ext (fun r : Row => format_2f (r AMOUNT_DUE))
               (survivors df) (survivors df')).
    - reflexivity.
    - eapply Forall2_impl; [|exact Hs]. intros a b Hab.
      apply agree_on_consumed in Hab as (-> & _). reflexivity.
    - eapply Forall2_impl; [|exact Hs]. intros a b Hab.
      apply agree_on_consumed in Hab as (_ & _ & -> & _). reflexivity.
    - eapply Forall2_impl; [|exact Hs]. intros a b Hab.
      apply agree_on_consumed in Hab as (-> & _). reflexivity. }
  rewrite E. destruct (conversions (survivors df')) as [u|e]; [|reflexivity].
  cbn [bind rows]. f_equal. rewrite !map_map. apply map_Forall2_ext.
  eapply Forall2_impl; [|exact Hs]. intros x y Hxy.
  rewrite !record_of_out_row_eq. unfold debtor_of.
  apply agree_on_consumed in Hxy as (-> & -> & -> & -> & ->). reflexivity.
Qed.

Lemma annotated_agrees :
  Forall2 (agree_on CONSUMED) (rows sample_sheet) (rows annotated_sheet).
Proof.
  repeat constructor; intros n Hn; cbn [In CONSUMED REQUIRED] in Hn;
    repeat (destruct Hn as [<-|Hn]; [vm_compute; reflexivity|]);
    contradiction.
Qed.

Lemma only_consumed_cells_matter_witness :
  read_sample (Ok sample_sheet) = Ok sample_sheet /\
  read_sample (Ok annotated_sheet) = Ok annotated_sheet /\
  (forall n, In n CONSUMED ->
             has_column sample_sheet n = has_column annotated_sheet n) /\
  Forall2 (agree_on CONSUMED) (rows sample_sheet) (rows annotated_sheet) /\
  run_records read_sample (Ok sample_sheet)
  = run_records read_sample (Ok annotated_sheet).
Proof.
  assert (Hc : forall n, In n CONSUMED ->
                 has_column sample_sheet n = has_column annotated_sheet n).
  { intros n Hn. cbn [In CONSUMED REQUIRED] in Hn.
    repeat (destruct Hn as [<-|Hn]; [vm_compute; reflexivity|]).
    contradiction. }
  refine (conj eq_refl (conj eq_refl (conj Hc (conj annotated_agrees _)))).
  exact (only_consumed_cells_matter read_sample read_sample
           (Ok sample_sheet) (Ok annotated_sheet) _ _ eq_refl eq_refl Hc
           annotated_agrees).
Defined.

Lemma filter_idem {A} (p : A -> bool) l : filter p (filter p l) = filter p l.
Proof.
  induction l as [|a l IH]; cbn [filter]; [reflexivity|].
  destruct (p a) eqn:E; cbn [filter]; rewrite ?E, IH; reflexivity.
Qed.

(** X5. The rows that lack a required field have no part in the run:
    removing them from the sheet beforehand gives the same frame, or the
    same exception. *)
Theorem dropped_rows_have_no_part
    {file file' : Type} (read_excel : file -> result DataFrame)
    (read_excel' : file' -> result DataFrame)
    (f : file) (f' : file') (df : DataFrame) :
  read_excel f = Ok df ->
  read_excel' f' = Ok {| columns := columns df; rows := survivors df |} ->
  process_excel file read_excel f = process_excel file' read_excel' f'.
Proof.
  intros Hread Hread'. rewrite !process_excel_eq, Hread, Hread'. cbn [bind].
  change (survivors {| columns := columns df; rows := survivors df |})
    with (filter (notna_all REQUIRED) (survivors df)).
  unfold survivors. rewrite !filter_idem. reflexivity.
Qed.

Lemma dropped_rows_have_no_part_witness :
  read_sample (Ok sample_sheet) = Ok sample_sheet /\
  read_sample (Ok {| columns := columns sample_sheet;
                     rows := survivors sample_sheet |})
  = Ok {| columns := columns sample_sheet; rows := survivors sample_sheet |} /\
  process_excel _ read_sample (Ok sample_sheet)
  = process_excel _ read_sample
      (Ok {| columns := columns sample_sheet;
             rows := survivors sample_sheet |}).
Proof.
  refine (conj eq_refl (conj eq_refl _)).
  exact (dropped_rows_have_no_part read_sample read_sample (Ok sample_sheet)
           _ sample_sheet eq_refl eq_refl).
Defined.


(* ================================================================== *)
(** ** Trimming *)

Lemma lstrip_hd s :
  match lstrip s with
  | [] => True
  | c :: _ => isspace_char c = false
  end.
Proof.
  induction s as [|c s IH]; cbn [lstrip]; [exact I|].
  destruct (isspace_char c) eqn:E; [exact IH | exact E].
Qed.

Lemma lstrip_id s :
  match s with [] => True | c :: _ => isspace_char c = false end ->
  lstrip s = s.
Proof. destruct s as [|c s]; cbn [lstrip]; [reflexivity | now intros ->]. Qed.

Lemma lstrip_suffix s : exists ws, s = ws ++ lstrip s.
Proof.
  induction s as [|c s [ws IH]]; cbn [lstrip]; [now exists []|].
  destruct (isspace_char c); [|now exists []].
  exists (c :: ws). cbn [app]. now rewrite <- IH.
Qed.

Lemma rev_cons_last {A} (c : A) (t : list A) :
  rev (c :: t) = last (c :: t) c :: rev (removelast (c :: t)).
Proof.
  destruct (exists_last (l := c :: t) ltac:(discriminate)) as (l & a & E).
  rewrite E, rev_unit, last_last, removelast_last. reflexivity.
Qed.

(** Trimmed text is left as it is. *)
Lemma strip_trimmed s : trimmed s -> strip s = s.
Proof.
  destruct s as [|c t]; [reflexivity|]. intros [Hc Hl].
  unfold strip, rstrip. rewrite (lstrip_id (c :: t)) by exact Hc.
  rewrite lstrip_id; [apply rev_involutive|].
  rewrite rev_cons_last. exact Hl.
Qed.

(** What [strip] returns is trimmed. *)
Lemma trimmed_strip s : trimmed (strip s).
Proof.
  unfold strip, rstrip.
  pose proof (lstrip_hd s) as Hu. set (u := lstrip s) in *. clearbody u.
  pose proof (lstrip_hd (rev u)) as Hw.
  destruct (lstrip_suffix (rev u)) as [ws E].
  set (w := lstrip (rev u)) in *. clearbody w.
  apply (f_equal (@rev char)) in E. rewrite rev_involutive, rev_app_distr in E.
  destruct w as [|a w]; [exact I|].
  cbn [rev] in *. unfold trimmed.
  destruct (rev w ++ [a]) as [|c t] eqn:Er; [exact I|]. split.
  - subst u. cbn [app] in Hu. exact Hu.
  - rewrite <- Er, last_last. exact Hw.
Qed.

Lemma strip_idem s : strip (strip s) = strip s.
Proof. apply strip_trimmed, trimmed_strip. Qed.

Lemma strip_In c s : In c (strip s) -> In c s.
Proof.
  unfold strip, rstrip. intros H. apply in_rev in H.
  destruct (lstrip_suffix (rev (lstrip s))) as [ws E].
  assert (In c (rev (lstrip s))) by (rewrite E; apply in_or_app; now right).
  apply in_rev in H0. destruct (lstrip_suffix s) as [ws' E'].
  rewrite E'. apply in_or_app. now right.
Qed.

Lemma ascii_digit_not_space c : is_ascii_digit c = true -> isspace_char c = false.
Proof.
  unfold is_ascii_digit. intros H. apply andb_true_iff in H as [H1 H2].
  apply N.leb_le in H1, H2. apply not_true_is_false. intros Hs.
  unfold isspace_char in Hs. apply existsb_exists in Hs as (r & Hin & Hr).
  unfold in_range in Hr. apply andb_true_iff in Hr as [H3 H4].
  apply N.leb_le in H3, H4. cbn in Hin.
  repeat (destruct Hin as [<-|Hin]; [cbn in H3, H4; lia|]). exact Hin.
Qed.

Lemma ascii_digits_trimmed s : forallb is_ascii_digit s = true -> trimmed s.
Proof.
  intros H. destruct s as [|c t]; [exact I|]. rewrite forallb_forall in H.
  split; apply ascii_digit_not_space, H; [now left|].
  destruct (exists_last (l := c :: t) ltac:(discriminate)) as (l & a & E).
  rewrite E, last_last. apply in_or_app. right. now left.
Qed.

(* ================================================================== *)
(** ** Numerals *)

Lemma digits_uint_exists ds :
  Forall (fun x => x < 10) ds -> exists d, digits_of_uint d = ds.
Proof.
  induction 1 as [|x ds Hx _ [d IH]]; [now exists Decimal.Nil|].
  assert (Hc : x = 0 \/ x = 1 \/ x = 2 \/ x = 3 \/ x = 4 \/ x = 5 \/ x = 6
               \/ x = 7 \/ x = 8 \/ x = 9) by lia.
  repeat destruct Hc as [->|Hc]; try subst x;
    [ exists (Decimal.D0 d) | exists (Decimal.D1 d) | exists (Decimal.D2 d)
    | exists (Decimal.D3 d) | exists (Decimal.D4 d) | exists (Decimal.D5 d)
    | exists (Decimal.D6 d) | exists (Decimal.D7 d) | exists (Decimal.D8 d)
    | exists (Decimal.D9 d) ]; cbn [digits_of_uint]; now rewrite IH.
Qed.

Lemma decimal_value_lt c d : decimal_value c = Some d -> d < 10.
Proof.
  unfold decimal_value. destruct (find _ _) as [[lo hi]|]; [|discriminate].
  intros [= <-]. apply N.mod_lt. lia.
Qed.

Lemma decimal_values_lt s ds :
  decimal_values s = Some ds ->
  Forall (fun x => x < 10) ds /\ List.length ds = List.length s.
Proof.
  revert ds. induction s as [|c s IH]; cbn [decimal_values]; intros ds.
  - intros [= <-]. split; [constructor | reflexivity].
  - destruct (decimal_value c) as [d|] eqn:Hc; [|discriminate].
    destruct (decimal_values s) as [ds'|]; [|discriminate].
    intros [= <-]. destruct (IH ds' eq_refl) as [HF HL]. split.
    + constructor; [now apply (decimal_value_lt c) | assumption].
    + cbn [List.length]. now rewrite HL.
Qed.

Lemma drop_leading_zeros_length s :
  (List.length (drop_leading_zeros s) <= List.length s)%nat.
Proof.
  induction s as [|c s IH]; [reflexivity|]. cbn [drop_leading_zeros].
  destruct s as [|c' s']; [reflexivity|].
  destruct (c =? 0x30); [|reflexivity]. cbn [List.length] in *. lia.
Qed.

Lemma str_of_N_value_length ds :
  Forall (fun x => x < 10) ds -> ds <> [] ->
  (List.length (str_of_N (digits_value ds)) <= List.length ds)%nat.
Proof.
  intros HF Hne. destruct (digits_uint_exists ds HF) as [d <-].
  rewrite digits_value_of_uint, str_of_N_of_uint, chars_unorm.
  - etransitivity; [apply drop_leading_zeros_length|].
    unfold chars_of_uint. now rewrite length_map.
  - intros ->. now apply Hne.
Qed.

(** [int] reads back what [str] wrote. *)
Lemma py_int_str_of_N n :
  (List.length (str_of_N n) <= int_max_str_digits)%nat ->
  py_int (str_of_N n) = Ok n.
Proof.
  intros H. unfold py_int. apply Nat.ltb_ge in H. rewrite H.
  unfold str_of_N. fold (chars_of_uint (N.to_uint n)).
  rewrite decimal_values_chars, digits_value_of_uint.
  now rewrite DecimalN.Unsigned.of_to.
Qed.

Lemma isdigit_nonempty s : isdigit s = true -> s <> [].
Proof. destruct s; [discriminate | discriminate]. Qed.

(** The digit branch of [convert_invoice], spelled out. *)
Lemma convert_invoice_digits v t :
  isna v = false -> convert_invoice v = Ok t ->
  isdigit (strip (py_str v)) = true ->
  exists n,
    py_int (strip (py_str v)) = Ok n /\ t = str_of_N n /\
    (List.length t <= List.length (strip (py_str v)))%nat /\
    (List.length (strip (py_str v)) <= int_max_str_digits)%nat.
Proof.
  intros Hna H Hd. unfold convert_invoice in H. rewrite Hna, Hd in H.
  destruct (py_int (strip (py_str v))) as [n|] eqn:Hn; [|discriminate].
  injection H as <-. exists n. split; [reflexivity|]. split; [reflexivity|].
  unfold py_int in Hn.
  destruct (int_max_str_digits <? _)%nat eqn:L; [discriminate|].
  apply Nat.ltb_ge in L.
  destruct (decimal_values (strip (py_str v))) as [ds|] eqn:Hv; [|discriminate].
  injection Hn as <-. split; [|exact L].
  destruct (decimal_values_lt _ _ Hv) as [HF HL]. rewrite <- HL.
  apply str_of_N_value_length; [exact HF|].
  intros ->. apply isdigit_nonempty in Hd. destruct (strip (py_str v));
    [congruence | discriminate].
Qed.

(* ================================================================== *)
(** ** Further properties of the document number *)

(** X6. An invoice number whose trimmed text is made of ASCII digits, at
    most 4300 of them, becomes that text without its leading zeros (one
    zero is kept when there is nothing else), and the number it denotes
    is the same before and after. *)
Theorem invoice_loses_leading_zeros (v : cell) (t : pystr) :
  isna v = false ->
  strip (py_str v) = t ->
  t <> [] -> forallb is_ascii_digit t = true ->
  (List.length t <= int_max_str_digits)%nat ->
  convert_invoice v = Ok (drop_leading_zeros t) /\
  py_int (drop_leading_zeros t) = py_int t.
Proof.
  intros Hna Ht Hne Hd Hlen.
  pose proof (convert_invoice_ascii_digits v t Hna Ht Hne Hd Hlen) as H.
  split; [exact H|].
  assert (Hi : isdigit (strip (py_str v)) = true)
    by (rewrite Ht; now apply isdigit_ascii).
  destruct (convert_invoice_digits v _ Hna H Hi) as (n & Hn & E & Hl & _).
  rewrite Ht in Hn, Hl. rewrite Hn, E. apply py_int_str_of_N.
  rewrite <- E. lia.
Qed.

Lemma invoice_loses_leading_zeros_witness :
  isna (Str (lit "  00048071 ")) = false /\
  strip (py_str (Str (lit "  00048071 "))) = lit "00048071" /\
  lit "00048071" <> [] /\
  forallb is_ascii_digit (lit "00048071") = true /\
  (List.length (lit "00048071") <= int_max_str_digits)%nat /\
  convert_invoice (Str (lit "  00048071 "))
  = Ok (drop_leading_zeros (lit "00048071")) /\
  py_int (drop_leading_zeros (lit "00048071")) = py_int (lit "00048071").
Proof.
  assert (H1 : isna (Str (lit "  00048071 ")) = false) by reflexivity.
  assert (H2 : strip (py_str (Str (lit "  00048071 "))) = lit "00048071")
    by (vm_compute; reflexivity).
  assert (H3 : lit "00048071" <> []) by discriminate.
  assert (H4 : forallb is_ascii_digit (lit "00048071") = true)
    by (vm_compute; reflexivity).
  assert (H5 : (List.length (lit "00048071") <= int_max_str_digits)%nat)
    by (apply Nat.leb_le; vm_compute; reflexivity).
  refine (conj H1 (conj H2 (conj H3 (conj H4 (conj H5 _))))).
  exact (invoice_loses_leading_zeros _ _ H1 H2 H3 H4 H5).
Defined.

(** X7. Digits of any script are read by value: an invoice number whose
    trimmed text is made of decimal digits, at most 4300 of them,
    becomes the canonical ASCII numeral of the number [int] reads from
    it, and that numeral reads back as the same number. *)
Theorem invoice_digits_by_value (v : cell) :
  isna v = false ->
  isdigit (strip (py_str v)) = true ->
  forallb isdecimal_char (strip (py_str v)) = true ->
  (List.length (strip (py_str v)) <= int_max_str_digits)%nat ->
  exists n,
    py_int (strip (py_str v)) = Ok n /\
    convert_invoice v = Ok (str_of_N n) /\
    forallb is_ascii_digit (str_of_N n) = true /\
    py_int (str_of_N n) = Ok n.
Proof.
  intros Hna Hd Hdec Hlen.
  assert (Hok : succeeds (convert_invoice v)).
  { apply convert_invoice_succeeds. intros _ _. auto. }
  destruct Hok as [t Ht].
  destruct (convert_invoice_digits v t Hna Ht Hd) as (n & Hn & -> & Hl & _).
  exists n. split; [exact Hn|]. split; [exact Ht|].
  split; [apply str_of_N_digits|]. apply py_int_str_of_N. lia.
Qed.

Lemma invoice_digits_by_value_witness :
  isna (Str arabic_48) = false /\
  isdigit (strip (py_str (Str arabic_48))) = true /\
  forallb isdecimal_char (strip (py_str (Str arabic_48))) = true /\
  (List.length (strip (py_str (Str arabic_48)))
   <= int_max_str_digits)%nat /\
  exists n,
    py_int (strip (py_str (Str arabic_48))) = Ok n /\
    convert_invoice (Str arabic_48) = Ok (str_of_N n) /\
    forallb is_ascii_digit (str_of_N n) = true /\
    py_int (str_of_N n) = Ok n.
Proof.
  assert (H1 : isna (Str arabic_48) = false) by reflexivity.
  assert (H2 : isdigit (strip (py_str (Str arabic_48))) = true)
    by (vm_compute; reflexivity).
  assert (H3 : forallb isdecimal_char (strip (py_str (Str arabic_48)))
               = true) by (vm_compute; reflexivity).
  assert (H4 : (List.length (strip (py_str (Str arabic_48)))
                <= int_max_str_digits)%nat)
    by (apply Nat.leb_le; vm_compute; reflexivity).
  refine (conj H1 (conj H2 (conj H3 (conj H4 _)))).
  exact (invoice_digits_by_value _ H1 H2 H3 H4).
Defined.

(** A converted invoice number is trimmed. *)
Lemma convert_invoice_trimmed (v : cell) (t : pystr) :
  convert_invoice v = Ok t -> trimmed t.
Proof.
  intros H. destruct (isna v) eqn:Hna.
  - rewrite convert_invoice_blank in H by exact Hna. injection H as <-.
    exact I.
  - destruct (isdigit (strip (py_str v))) eqn:Hd.
    + destruct (convert_invoice_digits v t Hna H Hd) as (n & _ & -> & _).
      apply ascii_digits_trimmed, str_of_N_digits.
    + unfold convert_invoice in H. rewrite Hna, Hd in H. injection H as <-.
      apply trimmed_strip.
Qed.

(** X8. The conversion of invoice numbers is idempotent, and its result
    is trimmed: a document number converts to itself, and has no blank
    character at either end. *)
Theorem convert_invoice_idempotent (v : cell) (t : pystr) :
  convert_invoice v = Ok t ->
  convert_invoice (Str t) = Ok t /\ trimmed t.
Proof.
  intros H. pose proof (convert_invoice_trimmed v t H) as Htr.
  split; [|exact Htr].
  unfold convert_invoice at 1. cbn [isna py_str]. rewrite (strip_trimmed t Htr).
  destruct (isna v) eqn:Hna.
  - rewrite convert_invoice_blank in H by exact Hna. injection H as <-.
    reflexivity.
  - destruct (isdigit (strip (py_str v))) eqn:Hd.
    + destruct (convert_invoice_digits v t Hna H Hd) as (n & Hn & -> & Hl & Hm).
      rewrite (isdigit_ascii _ (str_of_N_nonempty n) (str_of_N_digits n)).
      rewrite py_int_str_of_N by lia. reflexivity.
    + unfold convert_invoice in H. rewrite Hna, Hd in H. injection H as <-.
      now rewrite Hd.
Qed.

Lemma convert_invoice_idempotent_witness :
  convert_invoice (Str (lit "  00048071 ")) = Ok (lit "48071") /\
  convert_invoice (Str (lit "48071")) = Ok (lit "48071") /\
  trimmed (lit "48071").
Proof.
  split; [vm_compute; reflexivity|].
  apply (convert_invoice_idempotent (Str (lit "  00048071 "))).
  vm_compute; reflexivity.
Defined.

(* ================================================================== *)
(** ** The sentinel *)

Lemma no_star_app s t : no_star s -> no_star t -> no_star (s ++ t).
Proof. intros Hs Ht. apply Forall_app. now split. Qed.

Lemma no_star_cons c s : c <> 0x2A -> no_star s -> no_star (c :: s).
Proof. intros Hc Hs. now constructor. Qed.

Lemma no_star_digits ds : no_star (map ascii_digit ds).
Proof.
  apply Forall_forall. intros c Hc. apply in_map_iff in Hc as (d & <- & _).
  unfold ascii_digit. lia.
Qed.

Lemma no_star_str_of_N n : no_star (str_of_N n).
Proof. apply no_star_digits. Qed.

Lemma no_star_zfill w s : no_star s -> no_star (zfill w s).
Proof.
  intros H. unfold zfill. apply no_star_app; [|exact H].
  apply Forall_forall. intros c Hc. apply repeat_spec in Hc. subst. lia.
Qed.

Lemma no_star_lit_check s :
  forallb (fun c => negb (c =? 0x2A)) s = true -> no_star s.
Proof.
  intros H. apply Forall_forall. intros c Hc. rewrite forallb_forall in H.
  specialize (H c Hc). apply negb_true_iff, N.eqb_neq in H. exact H.
Qed.

Lemma no_star_sign s : no_star (PyFloat.sign_prefix s).
Proof. destruct s; now apply no_star_lit_check. Qed.

Lemma no_star_exponent x : no_star (PyFloat.exponent_part x).
Proof.
  unfold PyFloat.exponent_part. apply no_star_app.
  - destruct (x <? 0)%Z; now apply no_star_lit_check.
  - destruct (Z.abs x <? 10)%Z; [apply no_star_cons; [lia|]|];
      apply no_star_str_of_N.
Qed.

Lemma no_star_layout ds k : no_star (PyFloat.layout ds k).
Proof.
  unfold PyFloat.layout. cbv zeta.
  pose proof (no_star_digits ds) as Hcs.
  set (cs := map ascii_digit ds) in *. clearbody cs.
  assert (Hz : forall n, no_star (PyFloat.zeros n)).
  { intros n. apply Forall_forall. intros c Hc. apply repeat_spec in Hc.
    subst. lia. }
  destruct ((k <=? -4)%Z || (16 <? k)%Z).
  - destruct cs as [|c [|c' rest]]; [constructor| |].
    + inversion Hcs; subst.
      apply no_star_cons; [assumption | apply no_star_exponent].
    + inversion Hcs as [|? ? Hc Hr]; subst.
      apply no_star_cons; [assumption|]. apply no_star_cons; [lia|].
      apply no_star_app; [assumption | apply no_star_exponent].
  - destruct (k <=? 0)%Z.
    + apply no_star_app; [now apply no_star_lit_check|].
      apply no_star_app; auto.
    + destruct (Z.of_nat (List.length ds) <=? k)%Z.
      * apply no_star_app; [assumption|].
        apply no_star_app; [auto | now apply no_star_lit_check].
      * rewrite <- (firstn_skipn (Z.to_nat k) cs) in Hcs.
        apply Forall_app in Hcs as [H1 H2].
        apply no_star_app; [assumption|]. apply no_star_cons; [lia | assumption].
Qed.

Lemma no_star_repr x : no_star (PyFloat.repr x).
Proof.
  destruct x as [s|s| |s m e]; cbn [PyFloat.repr];
    try (apply no_star_app; [apply no_star_sign|]);
    try (now apply no_star_lit_check).
  destruct (binary_normalize _ _ _ _ _) as [s'|s'| |s' m' e'];
    try (apply no_star_app; [apply no_star_sign|]);
    try (now apply no_star_lit_check).
  destruct (PyFloat.shortest m' e') as [ds k].
  apply no_star_app; [apply no_star_sign | apply no_star_layout].
Qed.

Lemma no_star_timestamp t : no_star (timestamp_str t).
Proof.
  unfold timestamp_str, strftime_ymd.
  repeat first
    [ apply no_star_zfill
    | apply no_star_str_of_N
    | apply no_star_cons; [lia|]
    | apply no_star_app ].
  destruct (nanos t =? 0); [constructor|].
  destruct (nanos t mod 1000 =? 0);
    (apply no_star_cons; [lia|]); apply no_star_zfill, no_star_str_of_N.
Qed.

Lemma no_star_datetime d : no_star (datetime_str d).
Proof.
  unfold datetime_str.
  repeat first
    [ apply no_star_zfill
    | apply no_star_str_of_N
    | apply no_star_cons; [lia|]
    | apply no_star_app ].
  destruct (dt_microsecond d =? 0); [constructor|].
  apply no_star_cons; [lia|]. apply no_star_zfill, no_star_str_of_N.
Qed.

Lemma no_star_py_str v : (forall s, v <> Str s) -> no_star (py_str v).
Proof.
  intros Hv. destruct v as [x|z|s|t| |dt]; cbn [py_str].
  - apply no_star_repr.
  - destruct z; cbn [str_of_Z]; try apply no_star_str_of_N.
    apply no_star_cons; [lia | apply no_star_str_of_N].
  - now elim (Hv s).
  - apply no_star_timestamp.
  - now apply no_star_lit_check.
  - apply no_star_datetime.
Qed.

Lemma lstrip_blanks l s :
  Forall (fun c => isspace_char c = true) l -> lstrip (l ++ s) = lstrip s.
Proof.
  induction 1 as [|c l Hc _ IH]; cbn [app lstrip]; [reflexivity|].
  now rewrite Hc.
Qed.

Lemma lstrip_blank_prefix s :
  exists ws, s = ws ++ lstrip s /\ Forall (fun c => isspace_char c = true) ws.
Proof.
  induction s as [|c s (ws & IH & Hws)]; cbn [lstrip].
  - exists []. split; [reflexivity | constructor].
  - destruct (isspace_char c) eqn:E.
    + exists (c :: ws). split; [cbn [app]; now rewrite <- IH | now constructor].
    + exists []. split; [reflexivity | constructor].
Qed.

(** [strip] gives [core] exactly on [core] between blanks. *)
Lemma strip_padded core s :
  core <> [] -> trimmed core -> (strip s = core <-> padded core s).
Proof.
  intros Hne Ht. split.
  - intros E. unfold strip, rstrip in E.
    destruct (lstrip_blank_prefix s) as (l & El & Hl).
    destruct (lstrip_blank_prefix (rev (lstrip s))) as (r & Er & Hr).
    exists l, (rev r). split; [|split; [exact Hl | now apply Forall_rev]].
    rewrite El at 1. f_equal.
    apply (f_equal (@rev char)) in Er.
    rewrite rev_involutive, rev_app_distr in Er.
    rewrite E in Er. exact Er.
  - intros (l & r & -> & Hl & Hr). unfold strip, rstrip.
    rewrite lstrip_blanks by exact Hl.
    destruct core as [|c t]; [congruence|]. destruct Ht as [Hc Hlast].
    rewrite (lstrip_id ((c :: t) ++ r)) by exact Hc.
    rewrite rev_app_distr, lstrip_blanks by now apply Forall_rev.
    rewrite lstrip_id; [apply rev_involutive|].
    rewrite rev_cons_last. exact Hlast.
Qed.

(** The text of a number or of a date does not trim to the sentinel. *)
Lemma strip_not_sentinel v :
  (forall s, v <> Str s) -> strip (py_str v) <> lit "*None".
Proof.
  intros Hv E. pose proof (no_star_py_str v Hv) as Hstar.
  unfold no_star in Hstar. rewrite Forall_forall in Hstar.
  apply (Hstar 0x2A); [|reflexivity].
  apply strip_In. rewrite E. vm_compute. now left.
Qed.

Lemma strip_sentinel_text s :
  strip s = lit "*None" <-> padded (lit "*None") s.
Proof. apply strip_padded; [discriminate | split; reflexivity]. Qed.

(** The test of the lambda of step 1, read on the cell. *)
Lemma sentinel_strip v : strip (py_str v) = lit "*None" <-> is_sentinel v.
Proof.
  destruct v as [x|z|s|t| |d];
    try (split;
         [ intros E; exfalso;
           refine (strip_not_sentinel _ _ E); intros; discriminate
         | intros (s' & E & _); discriminate E ]).
  cbn [py_str]. rewrite strip_sentinel_text. split.
  - intros H. exists s. auto.
  - intros (s' & [= <-] & H). exact H.
Qed.

(** C4. The debtor reference of every surviving record is its card id,
    unless the card id is the text [*None], in this spelling, with
    nothing but blanks around it; then it is the customer name.  The
    text of a card id that is a number or a date is never [*None]
    between blanks, so such a card id always is the debtor reference. *)
Theorem debtor_reference_rule (file : Type)
    (read_excel : file -> result DataFrame) (f : file) (out : DataFrame) :
  process_excel file read_excel f = Ok out ->
  (exists df,
     read_excel f = Ok df /\
     Forall2
       (fun raw o =>
          (is_sentinel (raw CARD_ID) ->
           debtorReference (record_of o) = raw CUSTOMER_NAME) /\
          (~ is_sentinel (raw CARD_ID) ->
           debtorReference (record_of o) = raw CARD_ID))
       (survivors df) (rows out)) /\
  (forall v, (forall s, v <> Str s) -> ~ padded (lit "*None") (py_str v)).
Proof.
  intros H. split.
  - apply process_excel_records in H as (df & Hread & _ & _ & _ & HF).
    exists df. split; [assumption|].
    eapply Forall2_impl; [|exact HF]. intros raw o Ht.
    apply transform_fields in Ht as (-> & _). unfold debtor_of.
    destruct (PyStr.eqb _ _) eqn:E.
    + apply eqb_eq, sentinel_strip in E. split; [reflexivity | contradiction].
    + split; [|reflexivity]. intros E'.
      apply sentinel_strip, eqb_eq in E'. congruence.
  - intros v Hv Hp. apply strip_sentinel_text in Hp.
    exact (strip_not_sentinel v Hv Hp).
Qed.

Lemma debtor_reference_rule_witness :
  process_excel _ read_sample (Ok sentinel_sheet) = Ok sentinel_output /\
  map (fun o => debtorReference (record_of o)) (rows sentinel_output)
  = [ Str (lit "Acme Co"); Str (lit "Zeta AG"); Str (lit "*none");
      Int 1042; Str (lit "C99") ] /\
  is_sentinel (padded_none_row CARD_ID) /\
  ~ is_sentinel (lowercase_none_row CARD_ID) /\
  (exists df,
     read_sample (Ok sentinel_sheet) = Ok df /\
     Forall2
       (fun raw o =>
          (is_sentinel (raw CARD_ID) ->
           debtorReference (record_of o) = raw CUSTOMER_NAME) /\
          (~ is_sentinel (raw CARD_ID) ->
           debtorReference (record_of o) = raw CARD_ID))
       (survivors df) (rows sentinel_output)) /\
  (forall v, (forall s, v <> Str s) -> ~ padded (lit "*None") (py_str v)).
Proof.
  assert (Hrun : process_excel _ read_sample (Ok sentinel_sheet)
                 = Ok sentinel_output) by (vm_compute; reflexivity).
  assert (Hrefs : map (fun o => debtorReference (record_of o))
                      (rows sentinel_output)
                  = [ Str (lit "Acme Co"); Str (lit "Zeta AG");
                      Str (lit "*none"); Int 1042; Str (lit "C99") ])
    by (vm_compute; reflexivity).
  assert (Hyes : is_sentinel (padded_none_row CARD_ID)).
  { exists padded_none. split; [vm_compute; reflexivity|].
    exists [0x09; 0x20], [0x20; 0xA0].
    split; [reflexivity|]. split; repeat constructor. }
  assert (Hno : ~ is_sentinel (lowercase_none_row CARD_ID)).
  { intros (s & E & l & r & Es & _).
    assert (s = lit "*none") as ->
      by (vm_compute in E; injection E as <-; reflexivity).
    assert (In 0x4E (l ++ lit "*None" ++ r)) as Hin
      by (apply in_or_app; right; apply in_or_app; left; vm_compute; tauto).
    rewrite <- Es in Hin. vm_compute in Hin. intuition discriminate. }
  refine (conj Hrun (conj Hrefs (conj Hyes (conj Hno _)))).
  exact (debtor_reference_rule _ read_sample (Ok sentinel_sheet)
           sentinel_output Hrun).
Defined.

(** X9. Only text can be the sentinel: a card id that is a number or a
    date always is the debtor reference itself, and so is any text whose
    trimmed form differs from [*None]. *)
Theorem sentinel_only_in_text (raw : Row) :
  (strip (py_str (raw CARD_ID)) = lit "*None" ->
   exists s, raw CARD_ID = Str s /\ strip s = lit "*None") /\
  ((forall s, raw CARD_ID <> Str s) -> debtor_of raw = raw CARD_ID).
Proof.
  assert (G : strip (py_str (raw CARD_ID)) = lit "*None" ->
              exists s, raw CARD_ID = Str s /\ strip s = lit "*None").
  { intros H. destruct (raw CARD_ID) as [x|z|s|t| |dt] eqn:E;
      try (exfalso;
           assert (Hs : no_star (py_str (raw CARD_ID)))
             by (apply no_star_py_str; intros s'; rewrite E; discriminate);
           unfold no_star in Hs; rewrite Forall_forall in Hs;
           apply (Hs 0x2A); [|reflexivity];
           rewrite E; apply strip_In; rewrite H; now left).
    exists s. auto. }
  split; [exact G|]. intros Hn. unfold debtor_of.
  destruct (PyStr.eqb _ _) eqn:E; [|reflexivity].
  apply eqb_eq in E. destruct (G E) as (s & Hs & _). now elim (Hn s).
Qed.

Lemma sentinel_only_in_text_witness :
  (strip (py_str (acme_row CARD_ID)) = lit "*None" /\
   exists s, acme_row CARD_ID = Str s /\ strip s = lit "*None") /\
  ((forall s, row_of [("Card ID", Int 42)]%string CARD_ID <> Str s) /\
   debtor_of (row_of [("Card ID", Int 42)]%string)
   = row_of [("Card ID", Int 42)]%string CARD_ID).
Proof.
  split.
  - assert (H : strip (py_str (acme_row CARD_ID)) = lit "*None")
      by (vm_compute; reflexivity).
    exact (conj H (proj1 (sentinel_only_in_text acme_row) H)).
  - assert (H : forall s, row_of [("Card ID", Int 42)]%string CARD_ID <> Str s)
      by (intros s; vm_compute; discriminate).
    exact (conj H (proj2 (sentinel_only_in_text _) H)).
Defined.

(* ================================================================== *)
(** ** Sign and type *)

Lemma iter_pos_invariant {A} (P : A -> Prop) (g : A -> A) :
  (forall a, P a -> P (g a)) -> forall n a, P a -> P (iter_pos g n a).
Proof.
  intros Hg. induction n as [n IH|n IH|]; intros a Ha; cbn [iter_pos]; auto.
Qed.

Lemma shr_1_nonneg mrs : (0 <= shr_m mrs)%Z -> (0 <= shr_m (shr_1 mrs))%Z.
Proof.
  destruct mrs as [m r s]. cbn [shr_m]. intros H.
  destruct m as [|p|p]; [| |lia]; cbn [shr_1 shr_m]; [lia|].
  destruct p; cbn [shr_m]; lia.
Qed.

Lemma shr_fexp_nonneg m e l :
  (0 <= m)%Z ->
  (0 <= shr_m (fst (shr_fexp PyFloat.prec PyFloat.emax m e l)))%Z.
Proof.
  intros H. unfold shr_fexp, shr.
  assert (H0 : (0 <= shr_m (shr_record_of_loc m l))%Z).
  { destruct l as [|[]]; exact H. }
  destruct (_ - e)%Z; cbn [fst]; try exact H0.
  apply (iter_pos_invariant (fun x => (0 <= shr_m x)%Z));
    [apply shr_1_nonneg | exact H0].
Qed.

Lemma binary_round_sign sx m e :
  match binary_round PyFloat.prec PyFloat.emax sx m e with
  | S754_nan => False
  | S754_zero s | S754_infinity s | S754_finite s _ _ => s = sx
  end.
Proof.
  unfold binary_round. destruct (shl_align _ _ _) as [mz ez].
  unfold binary_round_aux.
  pose proof (shr_fexp_nonneg (Z.pos mz) ez loc_Exact ltac:(lia)) as H1.
  destruct (shr_fexp _ _ (Z.pos mz) ez loc_Exact) as [mrs' e'].
  cbn [fst] in H1.
  assert (H2 : (0 <= round_nearest_even (shr_m mrs') (loc_of_shr_record mrs'))%Z).
  { unfold round_nearest_even.
    destruct (loc_of_shr_record mrs') as [|[]]; try lia.
    destruct (Z.even (shr_m mrs')); lia. }
  pose proof (shr_fexp_nonneg _ e' loc_Exact H2) as H3.
  destruct (shr_fexp _ _ (round_nearest_even _ _) e' loc_Exact) as [mrs'' e''].
  cbn [fst] in H3.
  destruct (shr_m mrs'') as [|p|p]; [reflexivity | | lia].
  destruct (e'' <=? _)%Z; reflexivity.
Qed.

(** The float of an [int] is a number, with the sign of the [int]. *)
Lemma float_of_int_sign z :
  match PyFloat.float_of_int z with
  | S754_nan => False
  | S754_zero s | S754_infinity s | S754_finite s _ _ => s = (z <? 0)%Z
  end.
Proof.
  unfold PyFloat.float_of_int, binary_normalize.
  destruct z as [|p|p]; [reflexivity | |]; apply binary_round_sign.
Qed.

Lemma starts_with_minus_fixed2 s q :
  starts_with_minus (PyFloat.sign_prefix s ++ PyFloat.fixed2 q) = s.
Proof.
  destruct s; [reflexivity|]. cbn [PyFloat.sign_prefix app].
  destruct (fixed2_head q) as (c & w & -> & Hc). cbn [starts_with_minus].
  apply N.eqb_neq. unfold is_ascii_digit in Hc.
  apply andb_true_iff in Hc as [Hc _]. apply N.leb_le in Hc. lia.
Qed.

Lemma starts_with_minus_format x :
  starts_with_minus (PyFloat.format_2f x)
  = match x with
    | S754_nan => false
    | S754_zero s | S754_infinity s | S754_finite s _ _ => s
    end.
Proof.
  destruct x as [s|s| |s m e]; cbn [PyFloat.format_2f];
    [destruct s; reflexivity | destruct s; reflexivity | reflexivity |].
  apply starts_with_minus_fixed2.
Qed.

Lemma credit_iff_minus v t b :
  transaction_type v = Ok t -> format_2f v = Ok b ->
  (t = lit "CRD" -> starts_with_minus b = true) /\
  (starts_with_minus b = true -> v <> Float (S754_zero true) ->
   t = lit "CRD").
Proof.
  unfold transaction_type. destruct v as [x|z|s0|ts| |dt]; try discriminate;
    cbn [lt_zero bind format_2f].
  - intros [= <-] [= <-]. rewrite starts_with_minus_format.
    unfold PyFloat.ltb_zero, SFltb.
    destruct x as [[|]|[|]| |[|] m e]; cbn [SFcompare];
      split; intros; try reflexivity; try discriminate; congruence.
  - intros [= <-] Hb. pose proof (float_of_int_sign z) as Hs.
    assert (E : b = PyFloat.format_2f (PyFloat.float_of_int z)).
    { destruct (PyFloat.float_of_int z); congruence. }
    rewrite E, starts_with_minus_format.
    destruct (PyFloat.float_of_int z) as [s|s| |s m e]; try contradiction;
      subst s; destruct (z <? 0)%Z; split; intros;
      try reflexivity; try discriminate.
Qed.

Lemma Forall2_In_r {A B} (P : A -> B -> Prop) l l' b :
  Forall2 P l l' -> In b l' -> exists a, In a l /\ P a b.
Proof.
  induction 1 as [|x y l l' Hxy _ IH]; cbn [In]; [tauto|].
  intros [<-|Hb]; [exists x; auto|].
  destruct (IH Hb) as (a & Ha & Hp). exists a. auto.
Qed.

Section Invariants.

Variable file : Type.
Variable read_excel : file -> result DataFrame.

(** X10. In the result a credit always shows a minus sign in its
    balance, and a minus sign always means a credit, except for the
    amount minus zero, which is an invoice with the balance [-0.00]. *)
Theorem credit_shows_minus (f : file) (out : DataFrame) :
  process_excel file read_excel f = Ok out ->
  exists df,
    read_excel f = Ok df /\
    Forall2
      (fun raw o =>
         exists b,
           documentBalance (record_of o) = Str b /\
           (transactionType (record_of o) = Str (lit "CRD") ->
            starts_with_minus b = true) /\
           (starts_with_minus b = true ->
            raw AMOUNT_DUE <> Float (S754_zero true) ->
            transactionType (record_of o) = Str (lit "CRD")))
      (survivors df) (rows out).
Proof.
  intros H. apply process_excel_records in H as (df & Hread & _ & _ & _ & HF).
  exists df. split; [assumption|].
  eapply Forall2_impl; [|exact HF]. intros raw o Ht.
  apply transform_fields in Ht as (_ & Ht & -> & _ & _ & _ & Hb & ->).
  destruct (credit_iff_minus _ _ _ Ht Hb) as [H1 H2].
  eexists. split; [reflexivity|]. split.
  - intros [= E]. auto.
  - intros Hm Hz. now rewrite H2.
Qed.

(** X11. The result has exactly the five output columns, in order, and
    no more rows than the sheet; every transaction type is [CRD] or
    [INV], and every document number, document date and document
    balance is text, the document number trimmed. *)
Theorem result_shape (f : file) (out : DataFrame) :
  process_excel file read_excel f = Ok out ->
  exists df,
    read_excel f = Ok df /\
    columns out = FINAL /\
    (List.length (rows out) <= List.length (rows df))%nat /\
    Forall
      (fun o =>
         (o TRANSACTION_TYPE = Str (lit "CRD") \/
          o TRANSACTION_TYPE = Str (lit "INV")) /\
         (exists s, o DOCUMENT_NUMBER = Str s /\ trimmed s) /\
         (exists s, o DOCUMENT_DATE = Str s) /\
         (exists s, o DOCUMENT_BALANCE = Str s))
      (rows out).
Proof.
  intros H.
  apply process_excel_records in H as (df & Hread & _ & Hc & Hrows & HF).
  exists df. split; [assumption|]. split; [assumption|]. split.
  - rewrite Hrows, length_map. unfold survivors. apply filter_length_le.
  - apply Forall_forall. intros o Ho.
    destruct (Forall2_In_r _ _ _ _ HF Ho) as (raw & _ & Ht).
    apply transform_fields in Ht as (_ & Htt & Et & Hi & En & Ed & _ & Eb).
    change (o TRANSACTION_TYPE) with (transactionType (record_of o)).
    change (o DOCUMENT_NUMBER) with (documentNumber (record_of o)).
    change (o DOCUMENT_DATE) with (documentDate (record_of o)).
    change (o DOCUMENT_BALANCE) with (documentBalance (record_of o)).
    rewrite Et, En, Ed, Eb. repeat split; try (eexists; reflexivity).
    + clear - Htt. unfold transaction_type in *.
      destruct (lt_zero (raw AMOUNT_DUE)) as [[|]|]; cbn [bind the] in *;
        [left; reflexivity | right; reflexivity | discriminate].
    + eexists. split; [reflexivity|].
      now apply (convert_invoice_trimmed (raw INVOICE_NO)).
Qed.

(** X12. The page offers a download only after a run that returned: the
    file offered is the whole result of that run, the same frame as the
    preview, and no error is shown beside it; without an upload the page
    is the title, the instructions and the upload widget. *)
Theorem download_only_of_a_result (uploaded : option file) :
  (uploaded = None ->
   main file read_excel uploaded = [StTitle; StWrite; StFileUploader]) /\
  (forall data,
      In (StDownloadButton data) (main file read_excel uploaded) ->
      (exists f, uploaded = Some f /\
                 process_excel file read_excel f = Ok data) /\
      In (StDataframe data) (main file read_excel uploaded) /\
      shows_error (main file read_excel uploaded) = false).
Proof.
  split; [now intros ->|]. intros data Hin.
  destruct (download_is_complete _ _ _ _ Hin) as (f & -> & Hrun).
  split; [now exists f|]. unfold main. rewrite Hrun. cbn. auto 10.
Qed.

End Invariants.

Lemma credit_shows_minus_witness :
  process_excel _ read_sample (Ok sample_sheet) = Ok sample_output /\
  exists df,
    read_sample (Ok sample_sheet) = Ok df /\
    Forall2
      (fun raw o =>
         exists b,
           documentBalance (record_of o) = Str b /\
           (transactionType (record_of o) = Str (lit "CRD") ->
            starts_with_minus b = true) /\
           (starts_with_minus b = true ->
            raw AMOUNT_DUE <> Float (S754_zero true) ->
            transactionType (record_of o) = Str (lit "CRD")))
      (survivors df) (rows sample_output).
Proof.
  assert (H : process_excel _ read_sample (Ok sample_sheet) = Ok sample_output)
    by (vm_compute; reflexivity).
  exact (conj H (credit_shows_minus _ read_sample _ _ H)).
Defined.

Lemma result_shape_witness :
  process_excel _ read_sample (Ok sample_sheet) = Ok sample_output /\
  exists df,
    read_sample (Ok sample_sheet) = Ok df /\
    columns sample_output = FINAL /\
    (List.length (rows sample_output) <= List.length (rows df))%nat /\
    Forall
      (fun o =>
         (o TRANSACTION_TYPE = Str (lit "CRD") \/
          o TRANSACTION_TYPE = Str (lit "INV")) /\
         (exists s, o DOCUMENT_NUMBER = Str s /\ trimmed s) /\
         (exists s, o DOCUMENT_DATE = Str s) /\
         (exists s, o DOCUMENT_BALANCE = Str s))
      (rows sample_output).
Proof.
  assert (H : process_excel _ read_sample (Ok sample_sheet) = Ok sample_output)
    by (vm_compute; reflexivity).
  exact (conj H (result_shape _ read_sample _ _ H)).
Defined.

Lemma download_only_of_a_result_witness :
  (@None (result DataFrame) = None /\
   main _ read_sample None = [StTitle; StWrite; StFileUploader]) /\
  (In (StDownloadButton sample_output)
      (main _ read_sample (Some (Ok sample_sheet))) /\
   (exists f, Some (Ok sample_sheet) = Some f /\
              process_excel _ read_sample f = Ok sample_output) /\
   In (StDataframe sample_output)
      (main _ read_sample (Some (Ok sample_sheet))) /\
   shows_error (main _ read_sample (Some (Ok sample_sheet))) = false).
Proof.
  split.
  - refine (conj eq_refl _).
    exact (proj1 (download_only_of_a_result _ read_sample None) eq_refl).
  - assert (H : In (StDownloadButton sample_output)
                   (main _ read_sample (Some (Ok sample_sheet)))).
    { assert (E : main _ read_sample (Some (Ok sample_sheet))
                  = [StTitle; StWrite; StFileUploader; StSubheader;
                     StDataframe sample_output;
                     StDownloadButton sample_output])
        by (vm_compute; reflexivity).
      rewrite E. cbn. auto 10. }
    exact (conj H (proj2 (download_only_of_a_result _ read_sample
                            (Some (Ok sample_sheet))) sample_output H)).
Defined.

(** X13. An invoice number that is text of blank characters only, or
    empty text, is present for the filter and yet gives the empty
    document number. *)
Theorem blank_text_invoice (s : pystr) :
  forallb isspace_char s = true ->
  isna (Str s) = false /\ convert_invoice (Str s) = Ok [].
Proof.
  intros H. split; [reflexivity|].
  assert (E : lstrip s = []).
  { induction s as [|c s IH]; [reflexivity|]. cbn [forallb] in H.
    apply andb_true_iff in H as [Hc Hs]. cbn [lstrip]. rewrite Hc. auto. }
  unfold convert_invoice. cbn [isna py_str]. unfold strip, rstrip.
  rewrite E. reflexivity.
Qed.

Lemma blank_text_invoice_witness :
  forallb isspace_char (lit "   ") = true /\
  isna (Str (lit "   ")) = false /\ convert_invoice (Str (lit "   ")) = Ok [].
Proof.
  assert (H : forallb isspace_char (lit "   ") = true)
    by (vm_compute; reflexivity).
  exact (conj H (blank_text_invoice _ H)).
Defined.

(* ================================================================== *)
(** ** Whole amounts *)

Lemma digits2_pos_iter_xO m k :
  digits2_pos (Pos.iter xO m k) = (digits2_pos m + k)%positive.
Proof.
  induction k as [|k IH] using Pos.peano_ind.
  - cbn. lia.
  - rewrite Pos.iter_succ. cbn [digits2_pos]. rewrite IH. lia.
Qed.

Lemma iter_xO_value m k : N.pos (Pos.iter xO m k) = N.pos m * 2 ^ N.pos k.
Proof.
  induction k as [|k IH] using Pos.peano_ind.
  - cbn. lia.
  - rewrite Pos.iter_succ.
    change (N.pos (Pos.iter xO m k)~0) with (2 * N.pos (Pos.iter xO m k)).
    rewrite IH.
    replace (N.pos (Pos.succ k)) with (N.succ (N.pos k)) by lia.
    rewrite N.pow_succ_r'. lia.
Qed.

Lemma digits2_pos_bound m :
  (Z.pos (digits2_pos m) <= 53)%Z <-> (Z.pos m < 2 ^ 53)%Z.
Proof.
  assert (G : forall p, (2 ^ (Z.pos (digits2_pos p) - 1) <= Z.pos p
                         < 2 ^ Z.pos (digits2_pos p))%Z).
  { induction p as [p IH|p IH|]; cbn [digits2_pos].
    - replace (Z.pos (Pos.succ (digits2_pos p)) - 1)%Z
        with (Z.succ (Z.pos (digits2_pos p) - 1)) by lia.
      replace (Z.pos (Pos.succ (digits2_pos p)))
        with (Z.succ (Z.pos (digits2_pos p))) by lia.
      rewrite !Z.pow_succ_r by lia. lia.
    - replace (Z.pos (Pos.succ (digits2_pos p)) - 1)%Z
        with (Z.succ (Z.pos (digits2_pos p) - 1)) by lia.
      replace (Z.pos (Pos.succ (digits2_pos p)))
        with (Z.succ (Z.pos (digits2_pos p))) by lia.
      rewrite !Z.pow_succ_r by lia. lia.
    - cbn. lia. }
  specialize (G m). split; intros H.
  - eapply Z.lt_le_trans; [apply G|]. apply Z.pow_le_mono_r; lia.
  - destruct (Z.le_gt_cases (Z.pos (digits2_pos m)) 53) as [|Hgt]; [assumption|].
    exfalso. assert (2 ^ 53 <= 2 ^ (Z.pos (digits2_pos m) - 1))%Z
      by (apply Z.pow_le_mono_r; lia). lia.
Qed.

(** A mantissa with exactly 53 binary digits and an exponent within
    range is left as it is by the rounding. *)
Lemma binary_round_aux_exact sx mz ez :
  digits2_pos mz = 53%positive -> (-1074 <= ez <= 971)%Z ->
  binary_round_aux PyFloat.prec PyFloat.emax sx (Z.pos mz) ez loc_Exact
  = S754_finite sx mz ez.
Proof.
  intros Hd He. unfold binary_round_aux.
  assert (S : shr_fexp PyFloat.prec PyFloat.emax (Z.pos mz) ez loc_Exact
              = (Build_shr_record (Z.pos mz) false false, ez)).
  { unfold shr_fexp, shr, fexp, emin, Zdigits2, PyFloat.prec, PyFloat.emax.
    rewrite Hd.
    replace (Z.max (53 + ez - 53) (3 - 1024 - 53) - ez)%Z with 0%Z by lia.
    reflexivity. }
  rewrite S. cbn [shr_m loc_of_shr_record round_nearest_even]. rewrite S.
  cbn [shr_m]. unfold PyFloat.prec, PyFloat.emax.
  replace (ez <=? 1024 - 53)%Z with true by (symmetry; apply Z.leb_le; lia).
  reflexivity.
Qed.

(** The float of an [int] below 2^53 in size is that number, exactly. *)
Lemma float_of_int_exact p :
  (Z.pos p < 2 ^ 53)%Z ->
  forall sx,
  exists mz k,
    binary_round PyFloat.prec PyFloat.emax sx p 0 = S754_finite sx mz (- Z.of_N k)
    /\ N.pos mz = N.pos p * 2 ^ k.
Proof.
  intros Hp sx. apply digits2_pos_bound in Hp.
  unfold binary_round, shl_align, fexp, emin, PyFloat.prec, PyFloat.emax.
  rewrite Z.add_0_r.
  replace (Z.max (Z.pos (digits2_pos p) - 53) (3 - 1024 - 53))
    with (Z.pos (digits2_pos p) - 53)%Z by lia.
  rewrite Z.sub_0_r.
  destruct (Z.pos (digits2_pos p) - 53)%Z as [|q|q] eqn:E.
  - exists p, 0. split; [|cbn; lia].
    apply (binary_round_aux_exact sx p 0); [lia | lia].
  - exfalso. lia.
  - exists (Pos.iter xO p q), (N.pos q). split; [|apply iter_xO_value].
    apply binary_round_aux_exact.
    + rewrite digits2_pos_iter_xO. lia.
    + cbn. lia.
Qed.

Lemma hundredths_whole mz k n :
  N.pos mz = n * 2 ^ k -> PyFloat.hundredths mz (- Z.of_N k) = 100 * n.
Proof.
  intros E. unfold PyFloat.hundredths. destruct k as [|q].
  - change (- Z.of_N 0)%Z with 0%Z. cbv iota. change (Z.to_N 0) with 0.
    rewrite E, !N.pow_0_r. lia.
  - cbn [Z.of_N Z.opp]. unfold PyFloat.round_half_even_shift. cbv zeta.
    rewrite E.
    assert (Hd : 2 ^ N.pos q <> 0) by (apply N.pow_nonzero; lia).
    replace (100 * (n * 2 ^ N.pos q)) with (100 * n * 2 ^ N.pos q) by lia.
    rewrite N.div_mul, N.Div0.mod_mul by exact Hd.
    replace (2 * 0 ?= 2 ^ N.pos q) with Lt; [reflexivity|].
    symmetry. apply N.compare_lt_iff. lia.
Qed.

Lemma fixed2_whole n : PyFloat.fixed2 (100 * n) = str_of_N n ++ lit ".00".
Proof.
  unfold PyFloat.fixed2.
  replace (100 * n / 100) with n by (rewrite N.mul_comm, N.div_mul; lia).
  replace (100 * n / 10) with (10 * n)
    by (replace (100 * n) with (10 * n * 10) by lia;
        rewrite N.div_mul; lia).
  replace (10 * n mod 10) with 0
    by (rewrite N.mul_comm, N.Div0.mod_mul; reflexivity).
  replace (100 * n mod 10) with 0
    by (replace (100 * n) with (10 * n * 10) by lia;
        rewrite N.Div0.mod_mul; reflexivity).
  reflexivity.
Qed.

(** X14. A whole amount, an [int] below 2^53 in size, is written out
    exactly: its decimal numeral followed by [.00]. *)
Theorem whole_amount_exact (z : Z) :
  (Z.abs z < 2 ^ 53)%Z ->
  format_2f (Int z) = Ok (str_of_Z z ++ lit ".00").
Proof.
  intros Hz. cbn [format_2f]. unfold PyFloat.float_of_int, binary_normalize.
  destruct z as [|p|p].
  - reflexivity.
  - destruct (float_of_int_exact p ltac:(lia) false) as (mz & k & -> & E).
    cbn [PyFloat.format_2f PyFloat.sign_prefix app str_of_Z Z.to_N].
    now rewrite (hundredths_whole mz k (N.pos p) E), fixed2_whole.
  - destruct (float_of_int_exact p ltac:(lia) true) as (mz & k & -> & E).
    cbn [PyFloat.format_2f PyFloat.sign_prefix app str_of_Z].
    now rewrite (hundredths_whole mz k (N.pos p) E), fixed2_whole.
Qed.

Lemma whole_amount_exact_witness :
  (Z.abs (-1250) < 2 ^ 53)%Z /\
  format_2f (Int (-1250)) = Ok (str_of_Z (-1250) ++ lit ".00").
Proof.
  assert (H : (Z.abs (-1250) < 2 ^ 53)%Z) by (vm_compute; reflexivity).
  exact (conj H (whole_amount_exact _ H)).
Defined.
